(** * pkll: engine binary resolver, process supervisor and message transport

    A shallow embedding of [pkll/server.py].  Python code that touches the
    file system, the network, the child process or the console is written
    in a state-and-exception monad [Py] over an explicit [World]; the
    module-level table [BINARIES] is a finite map keyed by the tuple's
    components. *)

From stdpp Require Import gmap strings list.
From Stdlib Require Import ZArith Strings.Byte.

(** ** Exceptions and outcomes *)

(** The Python exceptions that the modelled code can raise or let through. *)
Inductive exn : Type :=
| OSError (msg : string)
| ValueError (msg : string)
| AssertionError
| AttributeError (msg : string)
| TypeError (msg : string)
| ConnectionError
| FileExistsError
| FileNotFoundError
| NotADirectoryError
| IsADirectoryError
| UnicodeDecodeError
| UnpackException (msg : string)
| BrokenPipeError
| OverflowError (msg : string).

(** Python's class hierarchy: which exceptions are instances of [OSError]
    ([IOError] is an alias of it, and [requests]' exceptions derive from
    it). *)
Definition is_OSError (e : exn) : bool :=
  match e with
  | OSError _ | ConnectionError | FileExistsError | FileNotFoundError
  | NotADirectoryError | IsADirectoryError | BrokenPipeError => true
  | _ => false
  end.

(** What a call does: it returns a value, raises, or never comes back
    (a [select] without timeout on streams that stay silent). *)
Inductive outcome (A : Type) : Type :=
| Returned (a : A)
| Raised (e : exn)
| Blocked.
Arguments Returned {A} a.
Arguments Raised {A} e.
Arguments Blocked {A}.

(** ** The host: file system, network, child process, console *)

(** A path is the list of its components, as [pathlib]'s [parts]. *)
Abbreviation path := (list string) (only parsing).

Inductive node : Type :=
| Dir (st_mode : Z)
| File (st_mode : Z) (content : list byte).

Definition node_mode (n : node) : Z :=
  match n with Dir m => m | File m _ => m end.

Definition S_IXUSR : Z := 64.        (* 0o100 *)
Definition S_IFDIR : Z := 16384.     (* 0o040000 *)
Definition S_IFREG : Z := 32768.     (* 0o100000 *)
Definition PERM_MASK : Z := 4095.    (* 0o7777, the bits chmod(2) can set *)

Inductive http_result : Type :=
| TransportFailure
| Response (status_code : Z) (content : list byte).

(** The facts of the host that the code reads and never changes. *)
Record Host : Type := mkHost {
  platform_system : string;          (* platform.system() *)
  platform_architecture : string;    (* platform.architecture()[0] *)
  home : path;                       (* what "~" expands to *)
  umask : Z;
  environ : gmap string string;      (* os.environ *)
  http : string -> http_result;      (* what a GET of the url yields *)
  popen_error : option exn           (* Some e: spawning a child raises e *)
}.

Inductive Stream : Type := Stdout | Stderr.

Global Instance Stream_eq_dec : EqDecision Stream.
Proof. solve_decision. Defined.

(** What the operating system answers during one turn of the receive loop:
    which of the two pipes [select] reports readable, what a [read] of each
    yields (the bytes that are there, none at end of file), and what [poll]
    says about the child. *)
Record poll_event : Type := mkEvent {
  ready_stdout : bool;
  ready_stderr : bool;
  stdout_data : list byte;
  stderr_data : list byte;
  exit_status : option Z
}.

Record Popen : Type := mkPopen {
  pid : nat;
  args : list path;
  child_env : gmap string string
}.

Inductive effect : Type :=
| HttpGet (url : string)
| Spawn (p : Popen)
| SetNonBlocking (child : nat) (s : Stream)
| StdinWrite (child : nat) (data : list byte)
| StdinFlush (child : nat)
| Select (child : nat) (timeout : option Z)
| Terminate (child : nat)
| Wait (child : nat)
| Print (text : string)
| Warn (text : string).

Record World : Type := {
  fs : gmap path node;
  _PROCESSES : list Popen;           (* the module-level registry *)
  pending : list poll_event;         (* what the OS will answer next *)
  effects : list effect;             (* what was done so far, oldest first *)
  broken_stdin : list nat            (* the children whose stdin has lost its
                                        reader: they have exited *)
}.

(** A world in which every child still reads its stdin. *)
Definition mkWorld (m : gmap path node) (processes : list Popen)
  (evs : list poll_event) (done : list effect) : World :=
  Build_World m processes evs done [].

Definition set_fs (m : gmap path node) (w : World) : World :=
  Build_World m (_PROCESSES w) (pending w) (effects w) (broken_stdin w).
Definition set_PROCESSES (l : list Popen) (w : World) : World :=
  Build_World (fs w) l (pending w) (effects w) (broken_stdin w).
Definition set_pending (l : list poll_event) (w : World) : World :=
  Build_World (fs w) (_PROCESSES w) l (effects w) (broken_stdin w).
Definition set_effects (l : list effect) (w : World) : World :=
  Build_World (fs w) (_PROCESSES w) (pending w) l (broken_stdin w).
Definition log (e : effect) (w : World) : World :=
  set_effects (effects w ++ [e]) w.

(** ** The monad of Python calls *)

Definition Py (A : Type) : Type := World -> outcome A * World.

Definition ret {A} (a : A) : Py A := fun w => (Returned a, w).
Definition raise {A} (e : exn) : Py A := fun w => (Raised e, w).
Definition block {A} : Py A := fun w => (Blocked, w).
Definition bind {A B} (m : Py A) (k : A -> Py B) : Py B :=
  fun w =>
    match m w with
    | (Returned a, w') => k a w'
    | (Raised e, w') => (Raised e, w')
    | (Blocked, w') => (Blocked, w')
    end.
Definition gets {A} (f : World -> A) : Py A := fun w => (Returned (f w), w).
Definition modify (f : World -> World) : Py unit := fun w => (Returned tt, f w).
Definition emit (e : effect) : Py unit := modify (log e).
Definition lift_fs (f : gmap path node -> exn + gmap path node) : Py unit :=
  fun w =>
    match f (fs w) with
    | inl e => (Raised e, w)
    | inr m => (Returned tt, set_fs m w)
    end.

Global Instance Py_ret : MRet Py := @ret.
Global Instance Py_bind : MBind Py := fun A B k m => bind m k.

(** ** File-system calls *)

Definition parent (p : path) : path := removelast p.      (* Path.parent *)
Definition name (p : path) : string := List.last p "".    (* Path.name *)

Definition expanduser (h : Host) (p : path) : path :=
  match p with
  | "~" :: rest => home h ++ rest
  | _ => p
  end.

(** [os.path.isfile] *)
Definition isfile (p : path) (m : gmap path node) : bool :=
  match m !! p with Some (File _ _) => true | _ => false end.

(** [Path.exists] *)
Definition path_exists (p : path) (m : gmap path node) : bool :=
  match m !! p with Some _ => true | None => false end.

(** [Path.mkdir(exist_ok=True, parents=True)]: every missing directory on
    the way is created, a directory that is there is kept, a file in the
    way is an error. *)
Fixpoint makedirs (above todo : path) (mask : Z) (m : gmap path node)
  : exn + gmap path node :=
  match todo with
  | [] => inr m
  | d :: todo' =>
      let p := above ++ [d] in
      match m !! p with
      | Some (Dir _) => makedirs p todo' mask m
      | Some (File _ _) =>
          inl (match todo' with [] => FileExistsError | _ => NotADirectoryError end)
      | None =>
          makedirs p todo' mask
            (<[p := Dir (Z.lor S_IFDIR (Z.land 511 (Z.lnot mask)))]> m)
      end
  end.

Definition mkdir_parents (h : Host) (p : path) : Py unit :=
  lift_fs (makedirs [] p (umask h)).

(** [with open(p, "wb") as f: f.write(data)] *)
Definition write_file (h : Host) (p : path) (data : list byte) : Py unit :=
  lift_fs (fun m =>
    match m !! p with
    | Some (Dir _) => inl IsADirectoryError
    | Some (File mode _) => inr (<[p := File mode data]> m)
    | None =>
        match m !! parent p with
        | Some (Dir _) =>
            inr (<[p := File (Z.lor S_IFREG (Z.land 438 (Z.lnot (umask h)))) data]> m)
        | Some (File _ _) => inl NotADirectoryError
        | None => inl FileNotFoundError
        end
    end).

(** [os.stat(p).st_mode] *)
Definition os_stat_mode (p : path) : Py Z :=
  fun w =>
    match fs w !! p with
    | Some n => (Returned (node_mode n), w)
    | None => (Raised FileNotFoundError, w)
    end.

(** [os.chmod(p, mode)]: the permission bits are replaced, the file-type
    bits stay. *)
Definition chmod_mode (old mode : Z) : Z :=
  Z.lor (Z.land old (Z.lnot PERM_MASK)) (Z.land mode PERM_MASK).

Definition set_mode (mode : Z) (n : node) : node :=
  match n with Dir _ => Dir mode | File _ c => File mode c end.

Definition os_chmod (p : path) (mode : Z) : Py unit :=
  lift_fs (fun m =>
    match m !! p with
    | Some n => inr (<[p := set_mode (chmod_mode (node_mode n) mode) n]> m)
    | None => inl FileNotFoundError
    end).

(** [requests.get(url)]: a transport failure raises, any response, whatever
    its status, is returned. *)
Definition requests_get (h : Host) (url : string) : Py (Z * list byte) :=
  emit (HttpGet url);;
  match http h url with
  | TransportFailure => raise ConnectionError
  | Response status body => ret (status, body)
  end.

(** ** Module constants *)

Definition BINARIES : gmap (list string) string :=
  list_to_map
    [ (["darwin"; "64bit"], "pkl-macos-amd64");
      (["darwin"; "aarch64"], "pkl-macos-aarch64");
      (["linux"; "64bit"], "pkl-linux-amd64");
      (["linux"; "aarch64"], "pkl-linux-aarch64");
      (["linux"; "64bit"; "alpine"], "pkl-alpine-linux-amd64") ].

Definition PKL_VERSION : string := "0.25.2".
Definition BASE_PATH : string := "https://github.com/apple/pkl/releases/download/".

(** ** The binary resolver *)

Definition lower_ascii (c : Ascii.ascii) : Ascii.ascii :=
  let n := Ascii.nat_of_ascii c in
  if (65 <=? n)%nat && (n <=? 90)%nat then Ascii.ascii_of_nat (n + 32) else c.

(** [str.lower] on the ASCII names that [platform.system] returns. *)
Fixpoint lower (s : string) : string :=
  match s with
  | EmptyString => EmptyString
  | String c s' => String (lower_ascii c) (lower s')
  end.

Definition detect_system (h : Host) : string * string :=
  let os_name := lower (platform_system h) in
  let arch := platform_architecture h in
  (os_name, arch).

Definition alpine_release : path := ["/"; "etc"; "alpine-release"].

Definition is_alpine_linux : Py bool :=
  gets (fun w => isfile alpine_release (fs w)).

Definition download_binary (h : Host) (file : string) (target_fp : path) : Py unit :=
  let url := BASE_PATH +:+ PKL_VERSION +:+ "/" +:+ file in
  response ← requests_get h url;
  write_file h target_fp (snd response).

(** The first lines of [get_binary_path], up to the key that is looked up
    in [BINARIES]. *)
Definition binary_key (h : Host) : Py (list string) :=
  let '(os_name, arch) := detect_system h in
  os_name ← (if String.eqb os_name "linux"
              then (a ← is_alpine_linux; ret (if a : bool then "alpine" else os_name))
              else ret os_name);
  let binary_key := [os_name; arch] in
  if bool_decide (binary_key = ["linux"; "64bit"])
  then (a ← is_alpine_linux;
        ret (if a : bool then binary_key ++ ["alpine"] else binary_key))
  else ret binary_key.

(** Where the binary of that name is kept: ~/.pkl/bin/<version>/<name>. *)
Definition local_binary_path (h : Host) (bin_file : string) : path :=
  let bin_parent_path := expanduser h (["~"; ".pkl"; "bin"] ++ [PKL_VERSION]) in
  bin_parent_path ++ [bin_file].

Definition get_binary_path (h : Host) : Py path :=
  binary_key ← binary_key h;
  match BINARIES !! binary_key with
  | None => raise (OSError "No compatible binary found for your system.")
  | Some bin_file =>
      let binary_path := local_binary_path h bin_file in
      present ← gets (fun w => path_exists binary_path (fs w));
      (if negb present
       then (mkdir_parents h (parent binary_path);;
             download_binary h bin_file binary_path)
       else ret tt);;
      current_permissions ← os_stat_mode binary_path;
      let new_permissions := Z.lor current_permissions S_IXUSR in
      os_chmod binary_path new_permissions;;
      ret binary_path
  end.

(** ** The message codec

    [msgpack] and [bytes.decode] are libraries outside the repository; the
    transport is written over what it uses of them.  [packb] raises on an
    object it cannot serialise ([TypeError], [OverflowError] for an integer
    out of range), draining an [Unpacker] fails on malformed input, and
    decoding fails on bytes that are not UTF-8. *)
Class Codec (Obj : Type) : Type := mkCodec {
  packb : Obj -> exn + list byte;
  unpacker_list : list byte -> string + list Obj;
  bytes_decode : list byte -> option string
}.

Definition newline : string := String (Ascii.ascii_of_nat 10) EmptyString.

(** [print(text, end=end_)] *)
Definition print (text end_ : string) : Py unit := emit (Print (text +:+ end_)).

(** ** The process supervisor and the transport *)

Record PKLServer : Type := mkServer {
  _process : option Popen;
  _cmd : list path;
  next_request_id : Z
}.

Definition set_process (p : option Popen) (self : PKLServer) : PKLServer :=
  mkServer p (_cmd self) (next_request_id self).

(** [_cmd] is the binary's path followed by the word "server". *)
Definition __init__ (h : Host) : Py PKLServer :=
  binary_path ← get_binary_path h;
  ret (mkServer None [binary_path; ["server"]] 1).

Definition get_request_id (self : PKLServer) : Z * PKLServer :=
  let ret := next_request_id self in
  (ret, mkServer (_process self) (_cmd self) (next_request_id self + 1)).

(** The child that [Popen] creates is named by its place in the registry,
    where every child ever started stays. *)
Definition start_process (h : Host) (self : PKLServer) (debug : bool) : Py PKLServer :=
  match _process self with
  | Some _ => ret self
  | None =>
      let env := if debug then {[ "PKL_DEBUG" := "1" ]} else environ h in
      match popen_error h with
      | Some e => raise e
      | None =>
          child ← gets (fun w => length (_PROCESSES w));
          let process := mkPopen child (_cmd self) env in
          emit (Spawn process);;
          emit (SetNonBlocking child Stdout);;
          emit (SetNonBlocking child Stderr);;
          modify (fun w => set_PROCESSES (_PROCESSES w ++ [process]) w);;
          ret (set_process (Some process) self)
      end
  end.

Definition check_process (self : PKLServer) (is_raise : bool) : Py bool :=
  match _process self with
  | None =>
      if is_raise
      then raise (ValueError "Start server first with 'start_process'")
      else ret false
  | Some _ => ret true
  end.

Definition terminate (self : PKLServer) : Py PKLServer :=
  match _process self with
  | None => raise (AttributeError "'NoneType' object has no attribute 'terminate'")
  | Some process =>
      emit (Terminate (pid process));;
      emit (Wait (pid process));;
      ret (set_process None self)
  end.

(** The body of [for process in _PROCESSES] in the exit hook. *)
Fixpoint terminate_each (processes : list Popen) : Py unit :=
  match processes with
  | [] => ret tt
  | process :: processes' =>
      emit (Terminate (pid process));;
      emit (Wait (pid process));;
      terminate_each processes'
  end.

(** The hook that the module registers with [atexit]. *)
Definition terminate_processes : Py unit :=
  processes ← gets _PROCESSES;
  terminate_each processes.

(** [select.select([stdout, stderr], [], [], timeout)]: the ready streams,
    in the order they were passed. *)
Definition select (ev : poll_event) : list Stream :=
  (if ready_stdout ev then [Stdout] else []) ++
  (if ready_stderr ev then [Stderr] else []).

(** [select.select] refuses a negative timeout with a [ValueError];
    [None] means no timeout. *)
Definition select_rejects (timeout : option Z) : bool :=
  match timeout with Some t => (t <? 0)%Z | None => false end.

Definition select_call (child : nat) (timeout : option Z) : Py unit :=
  if select_rejects timeout
  then raise (ValueError "timeout must be non-negative")
  else emit (Select child timeout).

Definition stream_read (ev : poll_event) (s : Stream) : list byte :=
  match s with Stdout => stdout_data ev | Stderr => stderr_data ev end.

(** How the [while True] loop of [receive_message] is left: by its
    [return], or by one of its two [break]s. *)
Inductive loop_exit : Type :=
| LoopReturn
| LoopBreak (outputs : list (list byte)).

(** [stdin.write(data)] on the unbuffered pipe of a child: the bytes go
    out, or the pipe has lost its reader and the write raises. *)
Definition stdin_write (child : nat) (data : list byte) : Py unit :=
  broken ← gets (fun w => bool_decide (child ∈ broken_stdin w));
  if broken : bool then raise BrokenPipeError else emit (StdinWrite child data).

Section Transport.
Context {Obj : Type} {codec : Codec Obj}.

Definition send_message (self : PKLServer) (msg_obj : Obj) : Py unit :=
  check_process self true;;
  match packb msg_obj with
  | inl e => raise e
  | inr encoded_message =>
      match _process self with
      | None => raise (AttributeError "'NoneType' object has no attribute 'stdin'")
      | Some process =>
          stdin_write (pid process) encoded_message;;
          emit (StdinFlush (pid process))
      end
  end.

(** The body of [for stream in readable]. *)
Fixpoint read_streams (ev : poll_event) (readable : list Stream)
  (outputs : list (list byte)) : Py (list (list byte)) :=
  match readable with
  | [] => ret outputs
  | stream :: readable' =>
      let output := stream_read ev stream in
      if bool_decide (stream = Stdout)
      then read_streams ev readable' (outputs ++ [output])
      else
        match bytes_decode output with
        | None => raise UnicodeDecodeError
        | Some text => print text "";; read_streams ev readable' outputs
        end
  end.

(** The [while True] loop, one pending answer of the OS per turn; when the
    OS has nothing more to answer, [select] does not come back. *)
Fixpoint receive_loop (child : nat) (timeout : option Z) (empty_break : bool)
  (evs : list poll_event) (outputs : list (list byte)) : Py loop_exit :=
  match evs with
  | [] => select_call child timeout;; block
  | ev :: evs' =>
      select_call child timeout;;
      modify (set_pending evs');;
      let readable := select ev in
      if empty_break && (length readable =? 0)%nat
      then ret LoopReturn
      else
        outputs ← read_streams ev readable outputs;
        if (0 <? length outputs)%nat
        then ret (LoopBreak outputs)
        else
          match exit_status ev with
          | Some _ =>
              print "Process has terminated" newline;;
              ret (LoopBreak outputs)
          | None => receive_loop child timeout empty_break evs' outputs
          end
  end.

(** A bare [return] yields Python's [None]; otherwise the decoded list. *)
Definition receive_message (self : PKLServer) (timeout : option Z)
  (empty_break : bool) : Py (option (list Obj)) :=
  check_process self true;;
  match _process self with
  | None => raise (AttributeError "'NoneType' object has no attribute 'stdout'")
  | Some process =>
      evs ← gets pending;
      exit ← receive_loop (pid process) timeout empty_break evs [];
      match exit with
      | LoopReturn => ret None
      | LoopBreak outputs =>
          if (length outputs =? 1)%nat
          then
            match unpacker_list (hd [] outputs) with
            | inl msg => raise (UnpackException msg)
            | inr responses => ret (Some responses)
            end
          else raise AssertionError
      end
  end.

(** The [while response is None and retry <= max_retry] loop.  [fuel]
    bounds the turns; [receive_with_retry] passes enough of it. *)
Fixpoint retry_loop (fuel : nat) (self : PKLServer) (max_retry : Z)
  (response : option (list Obj)) (retry : Z) : Py (option (list Obj) * Z) :=
  if bool_decide (response = None) && (retry <=? max_retry)%Z
  then
    match fuel with
    | O => block
    | S fuel' =>
        response ← receive_message self None false;
        retry_loop fuel' self max_retry response (retry + 1)
    end
  else ret (response, retry).

Definition receive_with_retry (self : PKLServer) (max_retry : Z)
  : Py (option (list Obj)) :=
  '(response, retry) ← retry_loop (Z.to_nat (max_retry + 1)) self max_retry None 0;
  (if (retry =? max_retry)%Z then emit (Warn "Max retry reached.") else ret tt);;
  ret response.

Definition send_and_receive (self : PKLServer) (msg_obj : Obj)
  : Py (option (list Obj)) :=
  send_message self msg_obj;;
  receive_message self None false.

End Transport.

(** ** The message codes of [pkll/msgapi/code.py] *)

Module msgapi.
Definition CODE_NEW_EVALUATOR : Z := 32.                  (* 0x20 *)
Definition CODE_NEW_EVALUATOR_RESPONSE : Z := 33.         (* 0x21 *)
Definition CODE_CLOSE_EVALUATOR : Z := 34.                (* 0x22 *)
Definition CODE_EVALUATE : Z := 35.                       (* 0x23 *)
Definition CODE_EVALUATE_RESPONSE : Z := 36.              (* 0x24 *)
Definition CODE_EVALUATE_LOG : Z := 37.                   (* 0x25 *)
Definition CODE_EVALUATE_READ : Z := 38.                  (* 0x26 *)
Definition CODE_EVALUATE_READ_RESPONSE : Z := 39.         (* 0x27 *)
Definition CODE_EVALUATE_READ_MODULE : Z := 40.           (* 0x28 *)
Definition CODE_EVALUATE_READ_MODULE_RESPONSE : Z := 41.  (* 0x29 *)
Definition CODE_LIST_RESOURCES_REQUEST : Z := 42.         (* 0x2A *)
Definition CODE_LIST_RESOURCES_RESPONSE : Z := 43.        (* 0x2B *)
Definition CODE_LIST_MODULES_REQUEST : Z := 44.           (* 0x2C *)
Definition CODE_LIST_MODULES_RESPONSE : Z := 45.          (* 0x2D *)

(** The module's names with their values, in the order of the file. *)
Definition codes : list (string * Z) :=
  [ ("CODE_NEW_EVALUATOR", CODE_NEW_EVALUATOR);
    ("CODE_NEW_EVALUATOR_RESPONSE", CODE_NEW_EVALUATOR_RESPONSE);
    ("CODE_CLOSE_EVALUATOR", CODE_CLOSE_EVALUATOR);
    ("CODE_EVALUATE", CODE_EVALUATE);
    ("CODE_EVALUATE_RESPONSE", CODE_EVALUATE_RESPONSE);
    ("CODE_EVALUATE_LOG", CODE_EVALUATE_LOG);
    ("CODE_EVALUATE_READ", CODE_EVALUATE_READ);
    ("CODE_EVALUATE_READ_RESPONSE", CODE_EVALUATE_READ_RESPONSE);
    ("CODE_EVALUATE_READ_MODULE", CODE_EVALUATE_READ_MODULE);
    ("CODE_EVALUATE_READ_MODULE_RESPONSE", CODE_EVALUATE_READ_MODULE_RESPONSE);
    ("CODE_LIST_RESOURCES_REQUEST", CODE_LIST_RESOURCES_REQUEST);
    ("CODE_LIST_RESOURCES_RESPONSE", CODE_LIST_RESOURCES_RESPONSE);
    ("CODE_LIST_MODULES_REQUEST", CODE_LIST_MODULES_REQUEST);
    ("CODE_LIST_MODULES_RESPONSE", CODE_LIST_MODULES_RESPONSE) ].
End msgapi.

(** ** Notions used in the statements *)

(** The URL that [download_binary] requests for a file. *)
Definition download_url (f : string) : string :=
  BASE_PATH +:+ PKL_VERSION +:+ "/" +:+ f.

(** The mode of a file that [open(..., "wb")] creates. *)
Definition created_mode (h : Host) : Z :=
  Z.lor S_IFREG (Z.land 438 (Z.lnot (umask h))).

(** The world after [get_binary_path] found the binary in place: its node
    carries the owner-execute bit, nothing else differs. *)
Definition with_execute_bit (p : path) (n : node) (w : World) : World :=
  set_fs (<[p := set_mode (Z.lor (node_mode n) S_IXUSR) n]> (fs w)) w.

(** The ids that [n] calls of [get_request_id] in a row hand out. *)
Fixpoint request_ids (n : nat) (self : PKLServer) : list Z :=
  match n with
  | O => []
  | S n' => fst (get_request_id self) :: request_ids n' (snd (get_request_id self))
  end.

(** The exception of [check_process]. *)
Definition not_started : exn := ValueError "Start server first with 'start_process'".

Section Turns.
Context {Obj : Type} {codec : Codec Obj}.

(** A turn that neither returns, nor collects, nor raises: stdout is not
    readable, something is readable if [empty_break] is set, and what
    stderr delivers can be decoded. *)
Definition no_output (empty_break : bool) (ev : poll_event) : bool :=
  negb (ready_stdout ev) &&
  (negb empty_break || ready_stderr ev) &&
  (negb (ready_stderr ev) ||
   match bytes_decode (stderr_data ev) with Some _ => true | None => false end).

Definition still_running (ev : poll_event) : bool :=
  match exit_status ev with None => true | Some _ => false end.


End Turns.

(** The handle that a server holds is in the registry, at the place its
    [pid] names. *)
Definition registered (self : PKLServer) (w : World) : Prop :=
  forall p, _process self = Some p -> _PROCESSES w !! pid p = Some p.

(** Every child in the registry is named by its place there. *)
Definition registry_indexed (w : World) : Prop :=
  forall i p, _PROCESSES w !! i = Some p -> pid p = i.

(** The effects of talking to a child: waiting on its pipes, writing to
    it, and writing to the console. *)
Definition transport_effect (e : effect) : bool :=
  match e with
  | Select _ _ | StdinWrite _ _ | StdinFlush _ | Print _ | Warn _ => true
  | HttpGet _ | Spawn _ | SetNonBlocking _ _ | Terminate _ | Wait _ => false
  end.

(** [w'] differs from [w] by such effects at most (and by what the OS has
    still to answer): same files, same registry. *)
Definition io_only (w w' : World) : Prop :=
  fs w' = fs w /\
  _PROCESSES w' = _PROCESSES w /\
  exists added,
    effects w' = effects w ++ added /\
    forallb transport_effect added = true.

(** The file names of the table's two-component keys. *)
Definition plain_binaries : list string :=
  ["pkl-macos-amd64"; "pkl-macos-aarch64"; "pkl-linux-amd64"; "pkl-linux-aarch64"].

(** ** Sample hosts, worlds and a codec *)

(** The unsigned integers of msgpack: a value below 0x80 is a positive
    fixint, one byte that is a complete message; larger values follow a
    format byte 0xcc, 0xcd, 0xce or 0xcf in 1, 2, 4 or 8 bytes, big end
    first; from 2^64 on [packb] raises [OverflowError]. *)
Definition be_bytes (width : nat) (n : N) : list byte :=
  map (fun k => default x00 (Byte.of_N ((n / 256 ^ N.of_nat k) mod 256)%N))
      (rev (seq 0 width)).

Definition be_value (data : list byte) : N :=
  fold_left (fun acc b => (acc * 256 + Byte.to_N b)%N) data 0%N.

Definition fixint_packb (n : N) : exn + list byte :=
  if (n <? 128)%N then inr (be_bytes 1 n)
  else if (n <? 2 ^ 8)%N then inr (xcc :: be_bytes 1 n)
  else if (n <? 2 ^ 16)%N then inr (xcd :: be_bytes 2 n)
  else if (n <? 2 ^ 32)%N then inr (xce :: be_bytes 4 n)
  else if (n <? 2 ^ 64)%N then inr (xcf :: be_bytes 8 n)
  else inl (OverflowError "Integer value out of range").

Definition uint_width (format : byte) : option nat :=
  match format with
  | xcc => Some 1 | xcd => Some 2 | xce => Some 4 | xcf => Some 8
  | _ => None
  end.

(** Draining the unpacker: the complete messages of the buffer, in order;
    a message cut short at the end of the buffer is not yielded.  Formats
    other than unsigned integers are beyond this sample. *)
Fixpoint unpack_uints (fuel : nat) (data : list byte) : string + list N :=
  match fuel, data with
  | S fuel', b :: data' =>
      if (Byte.to_N b <? 128)%N
      then match unpack_uints fuel' data' with
           | inr ns => inr (Byte.to_N b :: ns)
           | inl msg => inl msg
           end
      else
        match uint_width b with
        | Some k =>
            if (length data' <? k)%nat then inr []
            else match unpack_uints fuel' (drop k data') with
                 | inr ns => inr (be_value (take k data') :: ns)
                 | inl msg => inl msg
                 end
        | None => inl "unsupported format"
        end
  | _, _ => inr []
  end.

Definition fixint_unpacker_list (data : list byte) : string + list N :=
  unpack_uints (length data) data.

(** UTF-8 decoding of ASCII text. *)
Definition ascii_decode (data : list byte) : option string :=
  if forallb (fun b => (Byte.to_N b <? 128)%N) data
  then Some (String.string_of_list_byte data)
  else None.

Definition fixint_codec : Codec N :=
  mkCodec N fixint_packb fixint_unpacker_list ascii_decode.

Definition release_not_found : list byte := [x4e; x6f; x74; x20; x46; x6f; x75; x6e; x64].

Definition linux_host : Host :=
  mkHost "Linux" "64bit" ["/"; "home"; "user"] 18 ∅
         (fun _ => Response 200 [x7f; x45; x4c; x46]) None.

Definition offline_host : Host :=
  mkHost "Linux" "64bit" ["/"; "home"; "user"] 18 ∅ (fun _ => TransportFailure) None.

Definition stale_release_host : Host :=
  mkHost "Linux" "64bit" ["/"; "home"; "user"] 18 ∅
         (fun _ => Response 404 release_not_found) None.

Definition home_fs : gmap path node :=
  <[ ["/"; "home"; "user"] := Dir 16877 ]>
  (<[ ["/"; "home"] := Dir 16877 ]>
  (<[ ["/"; "etc"] := Dir 16877 ]>
  (<[ ["/"] := Dir 16877 ]> ∅))).

Definition fresh_world : World := mkWorld home_fs [] [] [].

Definition alpine_world : World :=
  mkWorld (<[ alpine_release := File 33188 [x33; x2e; x31; x39] ]> home_fs) [] [] [].

Definition linux_binary_path : path :=
  ["/"; "home"; "user"; ".pkl"; "bin"; "0.25.2"; "pkl-linux-amd64"].

(** A world in which the binary was put in place without the execute bit
    (mode 0o100644). *)
Definition installed_world : World :=
  mkWorld (<[ linux_binary_path := File 33188 [x7f; x45; x4c; x46] ]>
           (<[ ["/"; "home"; "user"; ".pkl"; "bin"; "0.25.2"] := Dir 16877 ]>
           (<[ ["/"; "home"; "user"; ".pkl"; "bin"] := Dir 16877 ]>
           (<[ ["/"; "home"; "user"; ".pkl"] := Dir 16877 ]> home_fs)))) [] [] [].

Definition server_cmd : list path := [linux_binary_path; ["server"]].
Definition idle_server : PKLServer := mkServer None server_cmd 1.
Definition engine : Popen := mkPopen 0 server_cmd ∅.
Definition running_server : PKLServer := mkServer (Some engine) server_cmd 1.

Definition running_world (evs : list poll_event) : World :=
  mkWorld (fs installed_world) [engine] evs [].

(** the child wrote to stderr and was gone by the time of [poll]. *)
Definition ev_crash : poll_event :=
  mkEvent false true [] [x62; x6f; x6f; x6d] (Some 1%Z).
(** one chunk on stdout holding the fixints 1 and 2. *)
Definition ev_reply : poll_event := mkEvent true false [x01; x02] [] None.
(** stdout at end of file: a read of zero bytes. *)
Definition ev_eof : poll_event := mkEvent true false [] [] (Some 0%Z).

Definition windows_host : Host :=
  mkHost "Windows" "64bit" ["C:"; "Users"; "user"] 18 ∅
         (fun _ => Response 200 [x4d; x5a]) None.

Definition linux_aarch64_host : Host :=
  mkHost "Linux" "aarch64" ["/"; "home"; "user"] 18 ∅
         (fun _ => Response 200 [x7f; x45; x4c; x46]) None.

(** A home in which [.pkl] is a regular file. *)
Definition blocked_world : World :=
  mkWorld (<[ ["/"; "home"; "user"; ".pkl"] := File 33188 [] ]> home_fs) [] [] [].

(** stdout and stderr both readable, stderr carrying a byte that is not
    UTF-8. *)
Definition ev_garbled : poll_event :=
  mkEvent true true [x01; x02] [xff] None.

(** * Properties *)

(** ** Permission bits *)

Lemma testbit_PERM_MASK (i : Z) :
  (0 <= i)%Z -> Z.testbit PERM_MASK i = (i <? 12)%Z.
Proof.
  intros Hi. change PERM_MASK with (Z.ones 12).
  destruct (Z.ltb_spec i 12).
  - apply Z.ones_spec_low; lia.
  - apply Z.ones_spec_high; lia.
Qed.

Lemma testbit_S_IXUSR (i : Z) : Z.testbit S_IXUSR i = (i =? 6)%Z.
Proof.
  change S_IXUSR with (2 ^ 6)%Z.
  destruct (Z.eqb_spec i 6) as [->|Hne].
  - reflexivity.
  - apply Z.pow2_bits_false; lia.
Qed.

(** [chmod] with the mode that [stat] gave, plus the owner-execute bit,
    leaves exactly that: the old mode with the bit set. *)
Lemma chmod_mode_S_IXUSR (m : Z) :
  chmod_mode m (Z.lor m S_IXUSR) = Z.lor m S_IXUSR.
Proof.
  unfold chmod_mode. apply Z.bits_inj'. intros i Hi.
  rewrite !Z.lor_spec, !Z.land_spec, Z.lor_spec, Z.lnot_spec by lia.
  rewrite testbit_PERM_MASK, testbit_S_IXUSR by lia.
  destruct (Z.testbit m i), (Z.ltb_spec i 12), (Z.eqb_spec i 6);
    simpl; try reflexivity; lia.
Qed.

Lemma lor_S_IXUSR_set (m : Z) : Z.testbit (Z.lor m S_IXUSR) 6 = true.
Proof. rewrite Z.lor_spec, testbit_S_IXUSR. apply orb_true_r. Qed.

Lemma lor_S_IXUSR_other (m i : Z) :
  i <> 6%Z -> Z.testbit (Z.lor m S_IXUSR) i = Z.testbit m i.
Proof.
  intros Hi. rewrite Z.lor_spec, testbit_S_IXUSR.
  destruct (Z.eqb_spec i 6); [contradiction | apply orb_false_r].
Qed.

(** ** The lookup key *)

Ltac binary_key_cases h :=
  unfold binary_key, detect_system, is_alpine_linux, gets, mbind, Py_bind, bind, ret;
  destruct (String.eqb (lower (platform_system h)) "linux") eqn:?;
  cbv beta iota;
  repeat (case_bool_decide; cbv beta iota).

(** Computing the key reads the file system and changes nothing. *)
Lemma binary_key_reads (h : Host) (w : World) :
  exists key, binary_key h w = (Returned key, w).
Proof. binary_key_cases h; eauto. Qed.

(** The key depends on the file system through the marker file only. *)
Lemma binary_key_marker (h : Host) (w w' : World) (key : list string) :
  isfile alpine_release (fs w') = isfile alpine_release (fs w) ->
  binary_key h w = (Returned key, w) ->
  binary_key h w' = (Returned key, w').
Proof.
  intros Hm.
  unfold binary_key, detect_system, is_alpine_linux, gets, mbind, Py_bind, bind, ret.
  destruct (String.eqb (lower (platform_system h)) "linux");
    cbv beta iota; rewrite ?Hm;
    repeat (case_bool_decide; cbv beta iota; rewrite ?Hm);
    intros [= <-]; reflexivity.
Qed.

(** On a Linux host with the alpine marker the key is ("alpine", arch):
    the operating-system name was overwritten before the tuple was built,
    so the refinement to ("linux", "64bit", "alpine") is never taken. *)
Lemma binary_key_alpine (h : Host) (w : World) :
  lower (platform_system h) = "linux" ->
  isfile alpine_release (fs w) = true ->
  binary_key h w = (Returned ["alpine"; platform_architecture h], w).
Proof.
  intros Hos Hmarker.
  unfold binary_key, detect_system, is_alpine_linux, gets, mbind, Py_bind, bind, ret.
  rewrite Hos, String.eqb_refl. cbv beta iota. rewrite Hmarker.
  case_bool_decide as Hk; [discriminate Hk | reflexivity].
Qed.

(** C2. On a Linux 64bit host where /etc/alpine-release exists, the resolver
    does not return the alpine binary: it looks up ("alpine", "64bit"),
    finds nothing and raises [OSError], with no effect on the world. *)
Theorem get_binary_path_alpine_raises (h : Host) (w : World) :
  lower (platform_system h) = "linux" ->
  platform_architecture h = "64bit" ->
  isfile alpine_release (fs w) = true ->
  BINARIES !! ["linux"; "64bit"; "alpine"] = Some "pkl-alpine-linux-amd64" /\
  get_binary_path h w =
    (Raised (OSError "No compatible binary found for your system."), w).
Proof.
  intros Hos Harch Hmarker. split; [reflexivity |].
  unfold get_binary_path, mbind, Py_bind, bind.
  rewrite (binary_key_alpine h w Hos Hmarker), Harch.
  reflexivity.
Qed.

Lemma get_binary_path_alpine_raises_witness :
  lower (platform_system linux_host) = "linux" /\
  platform_architecture linux_host = "64bit" /\
  isfile alpine_release (fs alpine_world) = true /\
  get_binary_path linux_host alpine_world =
    (Raised (OSError "No compatible binary found for your system."), alpine_world).
Proof.
  split; [reflexivity |]. split; [reflexivity |]. split; [reflexivity |].
  apply (get_binary_path_alpine_raises linux_host alpine_world); reflexivity.
Defined.

(** ** The local path *)

Lemma local_binary_path_name (h : Host) (f : string) :
  name (local_binary_path h f) = f.
Proof. unfold name, local_binary_path. apply last_last. Qed.

Lemma local_binary_path_parent (h : Host) (f : string) :
  parent (local_binary_path h f) = home h ++ [".pkl"; "bin"; PKL_VERSION].
Proof. unfold parent, local_binary_path. apply removelast_last. Qed.

Lemma isfile_set_mode (q p : path) (mode : Z) (n : node) (m : gmap path node) :
  m !! p = Some n ->
  isfile q (<[p := set_mode mode n]> m) = isfile q m.
Proof.
  intros Hn. unfold isfile.
  destruct (decide (p = q)) as [<-|Hne].
  - rewrite lookup_insert_eq, Hn. destruct n; reflexivity.
  - rewrite lookup_insert_ne by assumption. reflexivity.
Qed.

Lemma set_mode_set_mode (a b : Z) (n : node) :
  set_mode a (set_mode b n) = set_mode a n.
Proof. destruct n; reflexivity. Qed.

Lemma node_mode_set_mode (a : Z) (n : node) : node_mode (set_mode a n) = a.
Proof. destruct n; reflexivity. Qed.

Lemma get_binary_path_present (h : Host) (w : World) (key : list string)
  (f : string) (n : node) :
  binary_key h w = (Returned key, w) ->
  BINARIES !! key = Some f ->
  fs w !! local_binary_path h f = Some n ->
  get_binary_path h w =
    (Returned (local_binary_path h f), with_execute_bit (local_binary_path h f) n w).
Proof.
  intros Hkey Hf Hn.
  unfold get_binary_path, mbind, Py_bind, bind.
  rewrite Hkey, Hf. cbv beta iota zeta.
  unfold gets, path_exists. rewrite Hn. cbv beta iota.
  change (negb true) with false. unfold ret. cbv beta iota.
  unfold os_stat_mode. rewrite Hn. cbv beta iota.
  unfold os_chmod, lift_fs. rewrite Hn, chmod_mode_S_IXUSR.
  reflexivity.
Qed.

Lemma with_execute_bit_again (p : path) (n : node) (w : World) :
  with_execute_bit p (set_mode (Z.lor (node_mode n) S_IXUSR) n)
    (with_execute_bit p n w) = with_execute_bit p n w.
Proof.
  unfold with_execute_bit, set_fs. simpl.
  rewrite insert_insert_eq, node_mode_set_mode, set_mode_set_mode.
  rewrite <- Z.lor_assoc, Z.lor_diag. reflexivity.
Qed.

(** C7. When the binary is already at its local path, [get_binary_path]
    issues no download and returns that path; the file's mode afterwards
    has the owner-execute bit set and every other bit as before, its
    content and every other file are untouched; and calling again from the
    resulting world returns the same path and changes nothing more. *)
Theorem get_binary_path_idempotent (h : Host) (w : World) (key : list string)
  (f : string) (n : node) :
  binary_key h w = (Returned key, w) ->
  BINARIES !! key = Some f ->
  fs w !! local_binary_path h f = Some n ->
  let p := local_binary_path h f in
  let n' := set_mode (Z.lor (node_mode n) S_IXUSR) n in
  exists w',
    get_binary_path h w = (Returned p, w') /\
    name p = f /\
    effects w' = effects w /\
    fs w' = <[p := n']> (fs w) /\
    Z.testbit (node_mode n') 6 = true /\
    (forall i, i <> 6%Z -> Z.testbit (node_mode n') i = Z.testbit (node_mode n) i) /\
    get_binary_path h w' = (Returned p, w').
Proof.
  intros Hkey Hf Hn p n'.
  exists (with_execute_bit p n w).
  split; [apply (get_binary_path_present h w key f n); assumption |].
  split; [apply local_binary_path_name |].
  split; [reflexivity |].
  split; [reflexivity |].
  unfold n'. rewrite node_mode_set_mode.
  split; [apply lor_S_IXUSR_set |].
  split; [intros i Hi; apply lor_S_IXUSR_other; assumption |].
  rewrite (get_binary_path_present h (with_execute_bit p n w) key f
             (set_mode (Z.lor (node_mode n) S_IXUSR) n)).
  - fold p. rewrite with_execute_bit_again. reflexivity.
  - apply (binary_key_marker h w); [| assumption].
    apply isfile_set_mode. assumption.
  - assumption.
  - apply lookup_insert_eq.
Qed.

Lemma get_binary_path_idempotent_witness :
  exists w',
    get_binary_path linux_host installed_world = (Returned linux_binary_path, w') /\
    name linux_binary_path = "pkl-linux-amd64" /\
    effects w' = effects installed_world /\
    fs w' = <[linux_binary_path := File 33252 [x7f; x45; x4c; x46]]> (fs installed_world) /\
    Z.testbit 33252 6 = true /\
    (forall i, i <> 6%Z -> Z.testbit 33252 i = Z.testbit 33188 i) /\
    get_binary_path linux_host w' = (Returned linux_binary_path, w').
Proof.
  apply (get_binary_path_idempotent linux_host installed_world
           ["linux"; "64bit"] "pkl-linux-amd64" (File 33188 [x7f; x45; x4c; x46]));
    reflexivity.
Defined.

(** ** Creating the directories and downloading *)

(** [makedirs] touches only the paths from [above] (excluded) down to
    [above ++ todo]. *)
Lemma makedirs_frame (todo above : path) (mask : Z) (m m' : gmap path node) (q : path) :
  makedirs above todo mask m = inr m' ->
  length q <= length above \/ length above + length todo < length q ->
  m' !! q = m !! q.
Proof.
  revert above m. induction todo as [|d todo IH]; intros above m Hmk Hq; simpl in Hmk.
  - congruence.
  - assert (Hlen : length (above ++ [d]) = S (length above))
      by (rewrite length_app; simpl; lia).
    destruct (m !! (above ++ [d])) as [[md|md c]|] eqn:Hp; [| discriminate |].
    + apply (IH _ _ Hmk). rewrite Hlen. simpl in Hq. lia.
    + rewrite (IH _ _ Hmk) by (rewrite Hlen; simpl in Hq; lia).
      apply lookup_insert_ne. intros <-. rewrite Hlen in Hq. simpl in Hq. lia.
Qed.

(** When it succeeds, the directory asked for is there. *)
Lemma makedirs_dir (todo above : path) (mask : Z) (m m' : gmap path node) :
  makedirs above todo mask m = inr m' ->
  todo <> [] ->
  exists md, m' !! (above ++ todo) = Some (Dir md).
Proof.
  revert above m. induction todo as [|d todo IH]; intros above m Hmk Hne;
    [congruence |]. simpl in Hmk.
  destruct todo as [|d' todo].
  - destruct (m !! (above ++ [d])) as [[md|md c]|] eqn:Hp;
      [| discriminate |]; simpl in Hmk; injection Hmk as <-.
    + eauto.
    + rewrite lookup_insert_eq. eauto.
  - replace (above ++ d :: d' :: todo) with ((above ++ [d]) ++ d' :: todo)
      by (rewrite <- app_assoc; reflexivity).
    destruct (m !! (above ++ [d])) as [[md|md c]|] eqn:Hp; [| discriminate |];
      apply (IH _ _ Hmk); discriminate.
Qed.

(** What [get_binary_path] does when the binary is not there yet and the
    directories could be made: one GET; on a transport failure the
    exception, and no file; on any response its body, made executable. *)
Lemma get_binary_path_absent (h : Host) (w : World) (key : list string)
  (f : string) (m' : gmap path node) :
  binary_key h w = (Returned key, w) ->
  BINARIES !! key = Some f ->
  fs w !! local_binary_path h f = None ->
  makedirs [] (parent (local_binary_path h f)) (umask h) (fs w) = inr m' ->
  m' !! local_binary_path h f = None /\
  get_binary_path h w =
    match http h (download_url f) with
    | TransportFailure =>
        (Raised ConnectionError, log (HttpGet (download_url f)) (set_fs m' w))
    | Response status body =>
        (Returned (local_binary_path h f),
         set_fs (<[local_binary_path h f :=
                     File (Z.lor (created_mode h) S_IXUSR) body]> m')
                (log (HttpGet (download_url f)) w))
    end.
Proof.
  intros Hkey Hf Hn Hmk.
  assert (Hp : m' !! local_binary_path h f = None).
  { rewrite (makedirs_frame _ _ _ _ _ (local_binary_path h f) Hmk); [assumption |].
    right. rewrite local_binary_path_parent. unfold local_binary_path.
    simpl. rewrite !length_app. simpl. lia. }
  split; [assumption |].
  destruct (makedirs_dir _ _ _ _ _ Hmk) as [md Hdir].
  { rewrite local_binary_path_parent. destruct (home h); discriminate. }
  rewrite app_nil_l in Hdir.
  unfold get_binary_path, mbind, Py_bind, bind.
  rewrite Hkey, Hf. cbv beta iota zeta.
  unfold gets, path_exists. rewrite Hn. cbv beta iota.
  change (negb false) with true. cbv beta iota.
  unfold mkdir_parents, lift_fs at 1. rewrite Hmk.
  unfold download_binary, requests_get, mbind, Py_bind, bind, emit, modify.
  fold (download_url f).
  destruct (http h (download_url f)) as [|status body]; [reflexivity |].
  unfold ret, write_file, lift_fs. simpl fs. simpl snd.
  rewrite Hp, Hdir. fold (created_mode h).
  unfold os_stat_mode. simpl fs. rewrite lookup_insert_eq. cbv beta iota.
  unfold os_chmod, lift_fs. simpl fs. rewrite lookup_insert_eq.
  simpl node_mode. rewrite chmod_mode_S_IXUSR. simpl set_mode.
  rewrite insert_insert_eq. reflexivity.
Qed.

(** C4 (as the code has it). When the binary is absent and must be fetched,
    exactly one GET is issued.  If the GET fails in transport, the
    [ConnectionError] (an [OSError]) reaches the caller and no file is put
    at the binary's path.  If the GET yields a response, whatever its
    status code, the body is written to the path, made owner-executable,
    and the path is returned. *)
Theorem get_binary_path_download_outcome (h : Host) (w : World)
  (key : list string) (f : string) (m' : gmap path node) :
  binary_key h w = (Returned key, w) ->
  BINARIES !! key = Some f ->
  fs w !! local_binary_path h f = None ->
  makedirs [] (parent (local_binary_path h f)) (umask h) (fs w) = inr m' ->
  exists w',
    effects w' = effects w ++ [HttpGet (download_url f)] /\
    match http h (download_url f) with
    | TransportFailure =>
        get_binary_path h w = (Raised ConnectionError, w') /\
        is_OSError ConnectionError = true /\
        fs w' !! local_binary_path h f = None
    | Response status body =>
        get_binary_path h w = (Returned (local_binary_path h f), w') /\
        fs w' !! local_binary_path h f =
          Some (File (Z.lor (created_mode h) S_IXUSR) body)
    end.
Proof.
  intros Hkey Hf Hn Hmk.
  destruct (get_binary_path_absent h w key f m' Hkey Hf Hn Hmk) as [Hp Hrun].
  rewrite Hrun.
  destruct (http h (download_url f)) as [|status body]; eexists;
    (split; [| split; [reflexivity |]]); try reflexivity.
  - split; [reflexivity | exact Hp].
  - simpl. apply lookup_insert_eq.
Qed.

Lemma get_binary_path_download_outcome_witness :
  exists w',
    effects w' =
      [HttpGet "https://github.com/apple/pkl/releases/download/0.25.2/pkl-linux-amd64"] /\
    get_binary_path offline_host fresh_world = (Raised ConnectionError, w') /\
    is_OSError ConnectionError = true /\
    fs w' !! linux_binary_path = None.
Proof.
  destruct (get_binary_path_download_outcome offline_host fresh_world
              ["linux"; "64bit"] "pkl-linux-amd64"
              (<[ ["/"; "home"; "user"; ".pkl"; "bin"; "0.25.2"] := Dir 16877 ]>
               (<[ ["/"; "home"; "user"; ".pkl"; "bin"] := Dir 16877 ]>
               (<[ ["/"; "home"; "user"; ".pkl"] := Dir 16877 ]> home_fs))))
    as [w' Hw']; [reflexivity | reflexivity | reflexivity | reflexivity |].
  exists w'. exact Hw'.
Defined.

(** A 404 answer is not a failure for the resolver: the error page is
    installed as the binary, executable, and its path is returned. *)
Lemma get_binary_path_installs_error_page :
  http stale_release_host (download_url "pkl-linux-amd64") =
    Response 404 release_not_found /\
  fs fresh_world !! linux_binary_path = None /\
  fst (get_binary_path stale_release_host fresh_world) = Returned linux_binary_path /\
  fs (snd (get_binary_path stale_release_host fresh_world)) !! linux_binary_path =
    Some (File 33252 release_not_found).
Proof. repeat split; reflexivity. Qed.

(** ** A second call *)

Lemma bind_returned {A B : Type} (m : Py A) (k : A -> Py B) (w w' : World) (b : B) :
  bind m k w = (Returned b, w') ->
  exists a w1, m w = (Returned a, w1) /\ k a w1 = (Returned b, w').
Proof.
  unfold bind. destruct (m w) as [[a| |] w1]; try discriminate. eauto.
Qed.

Lemma lift_fs_returned (f : gmap path node -> exn + gmap path node) (w w' : World) :
  lift_fs f w = (Returned tt, w') ->
  exists m, f (fs w) = inr m /\ w' = set_fs m w.
Proof.
  unfold lift_fs. destruct (f (fs w)) as [e|m]; [discriminate |].
  intros [= <-]. eauto.
Qed.

(** Making directories creates no file and removes none. *)
Lemma makedirs_isfile (todo above : path) (mask : Z) (m m' : gmap path node) (q : path) :
  makedirs above todo mask m = inr m' ->
  isfile q m' = isfile q m.
Proof.
  revert above m. induction todo as [|d todo IH]; intros above m Hmk; simpl in Hmk.
  - congruence.
  - destruct (m !! (above ++ [d])) as [[md|md c]|] eqn:Hp; [| discriminate |].
    + apply (IH _ _ Hmk).
    + rewrite (IH _ _ Hmk). unfold isfile.
      destruct (decide (above ++ [d] = q)) as [<-|Hne].
      * rewrite lookup_insert_eq, Hp. reflexivity.
      * rewrite lookup_insert_ne by assumption. reflexivity.
Qed.

Lemma local_binary_path_not_marker (h : Host) (f : string) :
  local_binary_path h f <> alpine_release.
Proof.
  intros Heq. apply (f_equal (@length string)) in Heq.
  unfold local_binary_path, alpine_release in Heq. simpl in Heq.
  rewrite !length_app in Heq. simpl in Heq. lia.
Qed.

(** Whenever [get_binary_path] returns, it returns the local path named
    after the table entry of the key, that path now holds a node with the
    owner-execute bit, and the marker file is as it was. *)
Lemma get_binary_path_returned (h : Host) (w w' : World) (p : path) :
  get_binary_path h w = (Returned p, w') ->
  exists key f n,
    binary_key h w = (Returned key, w) /\
    BINARIES !! key = Some f /\
    p = local_binary_path h f /\
    name p = f /\
    fs w' !! p = Some (set_mode (Z.lor (node_mode n) S_IXUSR) n) /\
    isfile alpine_release (fs w') = isfile alpine_release (fs w).
Proof.
  destruct (binary_key_reads h w) as [key Hkey].
  unfold get_binary_path, mbind, Py_bind. intros Hrun.
  apply bind_returned in Hrun as (key' & w0 & Hkey' & Hrun).
  rewrite Hkey in Hkey'. injection Hkey' as <- <-.
  destruct (BINARIES !! key) as [f|] eqn:Hf; [| discriminate].
  cbv zeta in Hrun.
  apply bind_returned in Hrun as (present & w1 & Hpresent & Hrun).
  injection Hpresent as <- <-.
  apply bind_returned in Hrun as ([] & w2 & Hfetch & Hrun).
  apply bind_returned in Hrun as (cur & w3 & Hstat & Hrun).
  apply bind_returned in Hrun as ([] & w4 & Hchmod & Hrun).
  injection Hrun as <- <-.
  unfold os_stat_mode in Hstat.
  destruct (fs w2 !! local_binary_path h f) as [n|] eqn:Hn; [| discriminate].
  injection Hstat as <- <-.
  unfold os_chmod in Hchmod.
  apply lift_fs_returned in Hchmod as (m4 & Hm4 & ->). rewrite Hn in Hm4.
  injection Hm4 as <-. rewrite chmod_mode_S_IXUSR.
  exists key, f, n.
  split; [exact Hkey |]. split; [exact Hf |]. split; [reflexivity |].
  split; [apply local_binary_path_name |].
  split; [apply lookup_insert_eq |].
  simpl fs. rewrite (isfile_set_mode _ _ _ _ _ Hn).
  destruct (negb (path_exists (local_binary_path h f) (fs w))).
  - apply bind_returned in Hfetch as ([] & w5 & Hmk & Hdl).
    unfold mkdir_parents in Hmk.
    apply lift_fs_returned in Hmk as (m5 & Hm5 & ->).
    unfold download_binary, mbind, Py_bind in Hdl.
    apply bind_returned in Hdl as (response & w6 & Hget & Hwrite).
    assert (Hw6 : fs w6 = m5).
    { unfold requests_get, mbind, Py_bind, bind, emit, modify in Hget.
      destruct (http h _); [discriminate |]. injection Hget as _ <-. reflexivity. }
    unfold write_file in Hwrite.
    apply lift_fs_returned in Hwrite as (m6 & Hm6 & ->). simpl fs.
    rewrite <- (makedirs_isfile _ _ _ _ _ alpine_release Hm5), <- Hw6.
    assert (Hother : m6 !! alpine_release = fs w6 !! alpine_release).
    { pose proof (local_binary_path_not_marker h f) as Hne.
      destruct (fs w6 !! local_binary_path h f) as [[md|md c]|]; [discriminate | |].
      - injection Hm6 as <-. apply lookup_insert_ne. assumption.
      - destruct (fs w6 !! parent (local_binary_path h f)) as [[md|md c]|];
          [| discriminate..].
        injection Hm6 as <-. apply lookup_insert_ne. assumption. }
    unfold isfile. rewrite Hother. reflexivity.
  - injection Hfetch as <-. reflexivity.
Qed.

(** Once a call has returned, the next one returns the same path and
    leaves the world as it is: no request, no change of any file. *)
Lemma get_binary_path_second_call (h : Host) (w w' : World) (p : path) :
  get_binary_path h w = (Returned p, w') ->
  get_binary_path h w' = (Returned p, w').
Proof.
  intros Hrun.
  destruct (get_binary_path_returned h w w' p Hrun)
    as (key & f & n & Hkey & Hf & -> & _ & Hn & Hmarker).
  rewrite (get_binary_path_present h w' key f _
             (binary_key_marker h w w' key Hmarker Hkey) Hf Hn).
  f_equal. unfold with_execute_bit.
  rewrite node_mode_set_mode, set_mode_set_mode, <- Z.lor_assoc, Z.lor_diag.
  rewrite insert_id by assumption. destruct w'; reflexivity.
Qed.

(** ** Unsupported platforms *)

(** A key that is not in the table: [OSError], and the world is as before
    (no request, no write). *)
Lemma get_binary_path_unlisted (h : Host) (w : World) (key : list string) :
  binary_key h w = (Returned key, w) ->
  BINARIES !! key = None ->
  get_binary_path h w =
    (Raised (OSError "No compatible binary found for your system."), w).
Proof.
  intros Hkey Hnone. unfold get_binary_path, mbind, Py_bind, bind.
  rewrite Hkey, Hnone. reflexivity.
Qed.

(** Without the alpine marker the key is the detected pair itself. *)
Lemma binary_key_plain (h : Host) (w : World) :
  isfile alpine_release (fs w) = false ->
  binary_key h w =
    (Returned [lower (platform_system h); platform_architecture h], w).
Proof.
  intros Hm.
  unfold binary_key, detect_system, is_alpine_linux, gets, mbind, Py_bind, bind, ret.
  destruct (String.eqb (lower (platform_system h)) "linux");
    cbv beta iota; rewrite ?Hm;
    repeat (case_bool_decide; cbv beta iota; rewrite ?Hm); reflexivity.
Qed.

(** C6. The tuple ("linux", "64bit", "alpine") is listed in the table, yet
    on the host it describes the resolver raises [OSError] instead of
    returning a path named after the entry. *)
Theorem get_binary_path_listed_alpine_tuple :
  detect_system linux_host = ("linux", "64bit") /\
  isfile alpine_release (fs alpine_world) = true /\
  BINARIES !! ["linux"; "64bit"; "alpine"] = Some "pkl-alpine-linux-amd64" /\
  get_binary_path linux_host alpine_world =
    (Raised (OSError "No compatible binary found for your system."), alpine_world).
Proof. repeat split; reflexivity. Qed.

(** ** The transport *)

Section TransportFacts.
Context {Obj : Type} {codec : Codec Obj}.

(** What one pass over the streams that [select] reported does: stderr
    text, if any, goes to the console; at most the one stdout chunk is
    collected. *)
Lemma read_streams_select (ev : poll_event) (w : World) :
  read_streams ev (select ev) [] w =
    let outputs := if ready_stdout ev then [stdout_data ev] else [] in
    if ready_stderr ev
    then match bytes_decode (stderr_data ev) with
         | Some text => (Returned outputs, log (Print (text +:+ "")) w)
         | None => (Raised UnicodeDecodeError, w)
         end
    else (Returned outputs, w).
Proof.
  unfold select.
  destruct (ready_stdout ev), (ready_stderr ev); simpl;
    unfold mbind, Py_bind, bind, print, emit, modify, ret, raise;
    try reflexivity;
    destruct (bytes_decode (stderr_data ev)); reflexivity.
Qed.

Lemma read_streams_select_returned (ev : poll_event) (w w' : World)
  (outputs : list (list byte)) :
  read_streams ev (select ev) [] w = (Returned outputs, w') ->
  outputs = (if ready_stdout ev then [stdout_data ev] else []) /\
  pending w' = pending w /\
  exists printed, effects w' = effects w ++ printed.
Proof.
  rewrite read_streams_select. cbv zeta.
  destruct (ready_stderr ev).
  - destruct (bytes_decode (stderr_data ev)); [| discriminate].
    intros [= <- <-]. repeat split. eexists. reflexivity.
  - intros [= <- <-]. repeat split. exists []. symmetry. apply app_nil_r.
Qed.

(** One turn of the loop. *)
Lemma receive_loop_turn (child : nat) (timeout : option Z) (empty_break : bool)
  (ev : poll_event) (evs : list poll_event) (collected : list (list byte))
  (w : World) :
  select_rejects timeout = false ->
  receive_loop child timeout empty_break (ev :: evs) collected w =
    let w1 := set_pending evs (log (Select child timeout) w) in
    if empty_break && (length (select ev) =? 0)%nat
    then (Returned LoopReturn, w1)
    else
      match read_streams ev (select ev) collected w1 with
      | (Returned outputs, w2) =>
          if (0 <? length outputs)%nat
          then (Returned (LoopBreak outputs), w2)
          else
            match exit_status ev with
            | Some _ =>
                (Returned (LoopBreak outputs),
                 log (Print ("Process has terminated" +:+ newline)) w2)
            | None => receive_loop child timeout empty_break evs outputs w2
            end
      | (Raised e, w2) => (Raised e, w2)
      | (Blocked, w2) => (Blocked, w2)
      end.
Proof.
  intros Hok. simpl receive_loop. unfold select_call. rewrite Hok.
  unfold mbind, Py_bind, bind, emit, modify, ret. cbv beta iota zeta.
  destruct (empty_break && (length (select ev) =? 0)%nat); [reflexivity |].
  destruct (read_streams ev (select ev) collected
              (set_pending evs (log (Select child timeout) w)))
    as [[outputs| |] w2]; try reflexivity.
  destruct (0 <? length outputs)%nat; [reflexivity |].
  destruct (exit_status ev); reflexivity.
Qed.

(** A timeout that [select] refuses ends the call before anything is done. *)
Lemma receive_loop_rejected (child : nat) (timeout : option Z) (empty_break : bool)
  (evs : list poll_event) (collected : list (list byte)) (w : World) :
  select_rejects timeout = true ->
  receive_loop child timeout empty_break evs collected w =
    (Raised (ValueError "timeout must be non-negative"), w).
Proof.
  intros Hbad. destruct evs; simpl; unfold select_call; rewrite Hbad; reflexivity.
Qed.

Lemma receive_loop_blocked (child : nat) (timeout : option Z) (empty_break : bool)
  (collected : list (list byte)) (w : World) :
  select_rejects timeout = false ->
  receive_loop child timeout empty_break [] collected w =
    (Blocked, log (Select child timeout) w).
Proof. intros Hok. simpl. unfold select_call. rewrite Hok. reflexivity. Qed.

(** The two ways out of the loop by [break]: with the one chunk that a
    turn collected, or with nothing after [poll] reported the child gone
    (the turn that consumed [ev]). *)
Lemma receive_loop_break (child : nat) (timeout : option Z) (empty_break : bool)
  (evs : list poll_event) (w w' : World) (outputs : list (list byte)) :
  receive_loop child timeout empty_break evs [] w = (Returned (LoopBreak outputs), w') ->
  (exists chunk, outputs = [chunk]) \/
  (outputs = [] /\
   exists before ev code,
     evs = before ++ ev :: pending w' /\
     ready_stdout ev = false /\
     exit_status ev = Some code /\
     last (effects w') = Some (Print ("Process has terminated" +:+ newline))).
Proof.
  destruct (select_rejects timeout) eqn:Hsel;
    [rewrite receive_loop_rejected by assumption; discriminate |].
  revert w. induction evs as [|ev evs IH]; intros w.
  - rewrite receive_loop_blocked by assumption. discriminate.
  - rewrite receive_loop_turn by assumption. cbv zeta.
    destruct (empty_break && (length (select ev) =? 0)%nat); [discriminate |].
    destruct (read_streams ev (select ev) [] _) as [[outs| |] w2] eqn:Hread;
      try discriminate.
    apply read_streams_select_returned in Hread as (Houts & Hpend & _).
    destruct (ready_stdout ev) eqn:Hready; subst outs; simpl.
    + intros [= <- <-]. left. eauto.
    + destruct (exit_status ev) as [code|] eqn:Hexit.
      * intros [= <- <-]. right. split; [reflexivity |].
        exists [], ev, code. simpl. rewrite Hpend. simpl.
        repeat split; try assumption. apply last_snoc.
      * intros Hrec. destruct (IH _ Hrec) as [?|(-> & before & ev' & code & -> & ? & ? & ?)];
          [left; assumption |].
        right. split; [reflexivity |].
        exists (ev :: before), ev', code. repeat split; assumption.
Qed.

End TransportFacts.

(** C10. When the polling loop of [receive_message] is left by a [break],
    the list of outputs holds at most one chunk; and whenever the check
    [len(outputs) == 1] fails, the list is empty and the loop was left
    because [poll] reported that the child had exited, in a turn that did
    not find stdout readable. *)
Theorem receive_loop_at_most_one_chunk {Obj : Type} {codec : Codec Obj}
  (child : nat) (timeout : option Z)
  (empty_break : bool) (evs : list poll_event) (w w' : World)
  (outputs : list (list byte)) :
  receive_loop child timeout empty_break evs [] w = (Returned (LoopBreak outputs), w') ->
  length outputs <= 1 /\
  ((length outputs =? 1)%nat = false ->
   length outputs = 0 /\
   exists before ev code,
     evs = before ++ ev :: pending w' /\
     ready_stdout ev = false /\
     exit_status ev = Some code /\
     last (effects w') = Some (Print ("Process has terminated" +:+ newline))).
Proof.
  intros Hloop.
  destruct (receive_loop_break _ _ _ _ _ _ _ Hloop) as [[chunk ->]|[-> Hgone]].
  - split; [simpl; lia | discriminate].
  - split; [simpl; lia |]. intros _. split; [reflexivity | exact Hgone].
Qed.

Lemma receive_loop_at_most_one_chunk_witness :
  length (A := list byte) [] <= 1 /\
  ((length (A := list byte) [] =? 1)%nat = false ->
   length (A := list byte) [] = 0 /\
   exists before ev code,
     [ev_crash] = before ++ ev :: [] /\
     ready_stdout ev = false /\
     exit_status ev = Some code /\
     last [Select 0 None; Print "boom"; Print ("Process has terminated" +:+ newline)] =
       Some (Print ("Process has terminated" +:+ newline))).
Proof.
  apply (receive_loop_at_most_one_chunk (codec := fixint_codec) 0 None false
           [ev_crash] (running_world [ev_crash])
           (mkWorld (fs installed_world) [engine] []
              [Select 0 None; Print "boom";
               Print ("Process has terminated" +:+ newline)])).
  reflexivity.
Defined.

Section Receive.
Context {Obj : Type} {codec : Codec Obj}.

Lemma check_process_not_started (self : PKLServer) (w : World) :
  _process self = None ->
  check_process self true w = (Raised not_started, w).
Proof. intros Hp. unfold check_process. rewrite Hp. reflexivity. Qed.

(** [receive_message] on a started server: the loop, then the check and
    the decoding. *)
Lemma receive_message_running (self : PKLServer) (p : Popen)
  (timeout : option Z) (empty_break : bool) (w : World) :
  _process self = Some p ->
  receive_message self timeout empty_break w =
    match receive_loop (pid p) timeout empty_break (pending w) [] w with
    | (Returned LoopReturn, w') => (Returned None, w')
    | (Returned (LoopBreak outputs), w') =>
        if (length outputs =? 1)%nat
        then match unpacker_list (hd [] outputs) with
             | inl msg => (Raised (UnpackException msg), w')
             | inr responses => (Returned (Some responses), w')
             end
        else (Raised AssertionError, w')
    | (Raised e, w') => (Raised e, w')
    | (Blocked, w') => (Blocked, w')
    end.
Proof.
  intros Hp. unfold receive_message, check_process. rewrite Hp.
  unfold mbind, Py_bind, bind, ret, gets, raise. cbv beta iota.
  destruct (receive_loop (pid p) timeout empty_break (pending w) [] w)
    as [[[|outputs]| |] w']; try reflexivity.
  destruct (length outputs =? 1)%nat; [| reflexivity].
  destruct (unpacker_list (hd [] outputs)); reflexivity.
Qed.

(** Without [empty_break] the loop has no way to its [return]. *)
Lemma receive_loop_no_return (child : nat) (timeout : option Z)
  (evs : list poll_event) (collected : list (list byte)) (w w' : World) :
  receive_loop child timeout false evs collected w <> (Returned LoopReturn, w').
Proof.
  destruct (select_rejects timeout) eqn:Hsel;
    [rewrite receive_loop_rejected by assumption; discriminate |].
  revert collected w. induction evs as [|ev evs IH]; intros collected w.
  - rewrite receive_loop_blocked by assumption. discriminate.
  - rewrite receive_loop_turn by assumption. cbv zeta. simpl andb.
    destruct (read_streams ev (select ev) collected _) as [[outs| |] w2];
      try discriminate.
    destruct (0 <? length outs)%nat; [discriminate |].
    destruct (exit_status ev); [discriminate | apply IH].
Qed.

(** So [receive_message()] never returns [None]: it returns a list. *)
Lemma receive_message_returns_list (self : PKLServer) (timeout : option Z)
  (w w' : World) (r : option (list Obj)) :
  receive_message self timeout false w = (Returned r, w') ->
  r <> None.
Proof.
  destruct (_process self) as [p|] eqn:Hp.
  - rewrite (receive_message_running self p) by assumption.
    destruct (receive_loop (pid p) timeout false (pending w) [] w)
      as [[[|outputs]| |] w1] eqn:Hloop; try discriminate.
    + exfalso. exact (receive_loop_no_return _ _ _ _ _ _ Hloop).
    + destruct (length outputs =? 1)%nat; [| discriminate].
      destruct (unpacker_list (hd [] outputs)); [discriminate |].
      intros [= <- <-]. discriminate.
  - unfold receive_message, mbind, Py_bind, bind.
    rewrite check_process_not_started by assumption. discriminate.
Qed.

Lemma no_output_turn (empty_break : bool) (ev : poll_event) (w : World) :
  no_output empty_break ev = true ->
  empty_break && (length (select ev) =? 0)%nat = false /\
  exists w', read_streams ev (select ev) [] w = (Returned [], w') /\
             pending w' = pending w.
Proof.
  unfold no_output. rewrite read_streams_select. unfold select. cbv zeta.
  destruct (ready_stdout ev), empty_break, (ready_stderr ev); simpl;
    try discriminate;
    try (destruct (bytes_decode (stderr_data ev)); [| discriminate]);
    intros _; (split; [reflexivity |]); eexists; split; reflexivity.
Qed.

(** After any number of such turns with the child alive, a turn in which
    [poll] finds it gone leaves the loop with nothing collected. *)
Lemma receive_loop_child_gone (child : nat) (timeout : option Z)
  (empty_break : bool) (before : list poll_event) (ev : poll_event)
  (rest : list poll_event) (code : Z) (w : World) :
  select_rejects timeout = false ->
  forallb (fun e => no_output empty_break e && still_running e) before = true ->
  no_output empty_break ev = true ->
  exit_status ev = Some code ->
  exists w',
    receive_loop child timeout empty_break (before ++ ev :: rest) [] w =
      (Returned (LoopBreak []), w') /\
    pending w' = rest /\
    last (effects w') = Some (Print ("Process has terminated" +:+ newline)).
Proof.
  intros Hsel Hbefore Hev Hcode. revert w.
  induction before as [|e before IH]; intros w; simpl app;
    rewrite receive_loop_turn by assumption; cbv zeta.
  - destruct (no_output_turn empty_break ev
                (set_pending rest (log (Select child timeout) w)) Hev)
      as (-> & w2 & -> & Hpend).
    simpl. rewrite Hcode. eexists. split; [reflexivity |].
    split; [exact Hpend | apply last_snoc].
  - simpl in Hbefore. apply andb_prop in Hbefore as [He Hbefore].
    apply andb_prop in He as [He Hrun].
    destruct (no_output_turn empty_break e
                (set_pending (before ++ ev :: rest) (log (Select child timeout) w)) He)
      as (-> & w2 & -> & _).
    simpl. unfold still_running in Hrun.
    destruct (exit_status e); [discriminate |].
    apply IH. assumption.
Qed.

End Receive.

(** C1. When the child has exited without any output on stdout (turns
    that brought nothing, then a turn in which [poll] reports the exit),
    [receive_message] prints "Process has terminated" and leaves the loop,
    and then does not return: the check [len(outputs) == 1] raises
    [AssertionError]. *)
Theorem receive_message_child_gone_raises {Obj : Type} {codec : Codec Obj}
  (self : PKLServer) (p : Popen) (timeout : option Z) (empty_break : bool)
  (before : list poll_event) (ev : poll_event) (rest : list poll_event)
  (code : Z) (w : World) :
  _process self = Some p ->
  select_rejects timeout = false ->
  pending w = before ++ ev :: rest ->
  forallb (fun e => no_output empty_break e && still_running e) before = true ->
  no_output empty_break ev = true ->
  exit_status ev = Some code ->
  exists w',
    receive_message self timeout empty_break w = (Raised AssertionError, w') /\
    pending w' = rest /\
    last (effects w') = Some (Print ("Process has terminated" +:+ newline)).
Proof.
  intros Hp Hsel Hpend Hbefore Hev Hcode.
  destruct (receive_loop_child_gone (pid p) timeout empty_break before ev rest
              code w Hsel Hbefore Hev Hcode) as (w' & Hloop & Hrest & Hlast).
  exists w'. rewrite (receive_message_running self p) by assumption.
  rewrite Hpend, Hloop. simpl. auto.
Qed.

Lemma receive_message_child_gone_raises_witness :
  exists w',
    receive_message (codec := fixint_codec) running_server None false
      (running_world [ev_crash]) = (Raised AssertionError, w') /\
    pending w' = [] /\
    last (effects w') = Some (Print ("Process has terminated" +:+ newline)).
Proof.
  apply (receive_message_child_gone_raises (codec := fixint_codec)
           running_server engine None false [] ev_crash [] 1%Z
           (running_world [ev_crash])); reflexivity.
Defined.

Section EmptyBreak.
Context {Obj : Type} {codec : Codec Obj}.


End EmptyBreak.




Section Retry.
Context {Obj : Type} {codec : Codec Obj}.

Lemma receive_message_not_started (self : PKLServer) (timeout : option Z)
  (empty_break : bool) (w : World) :
  _process self = None ->
  receive_message self timeout empty_break w = (Raised not_started, w).
Proof.
  intros Hp. unfold receive_message, mbind, Py_bind, bind.
  rewrite check_process_not_started by assumption. reflexivity.
Qed.

Lemma send_message_not_started (self : PKLServer) (msg_obj : Obj) (w : World) :
  _process self = None ->
  send_message self msg_obj w = (Raised not_started, w).
Proof.
  intros Hp. unfold send_message, mbind, Py_bind, bind.
  rewrite check_process_not_started by assumption. reflexivity.
Qed.

(** The first turn of the retry loop, entered with no response yet. *)
Lemma retry_loop_enter (fuel : nat) (self : PKLServer) (max_retry : Z) (w : World) :
  (0 <= max_retry)%Z ->
  retry_loop (S fuel) self max_retry None 0 w =
    match receive_message self None false w with
    | (Returned response, w') => retry_loop fuel self max_retry response 1 w'
    | (Raised e, w') => (Raised e, w')
    | (Blocked, w') => (Blocked, w')
    end.
Proof.
  intros Hmax. simpl retry_loop.
  assert ((0 <=? max_retry)%Z = true) as -> by (apply Z.leb_le; assumption).
  unfold mbind, Py_bind, bind.
  destruct (receive_message self None false w) as [[response| |] w']; reflexivity.
Qed.

(** With a response in hand the loop is over, whatever the fuel. *)
Lemma retry_loop_leave (fuel : nat) (self : PKLServer) (max_retry retry : Z)
  (responses : list Obj) (w : World) :
  retry_loop fuel self max_retry (Some responses) retry w =
    (Returned (Some responses, retry), w).
Proof.
  destruct fuel; reflexivity.
Qed.

(** The fuel that [receive_with_retry] passes is never used up: the loop
    ends on its own condition. *)
Lemma retry_loop_fuel (fuel : nat) (self : PKLServer) (max_retry retry : Z)
  (response : option (list Obj)) (w : World) :
  (Z.to_nat (max_retry + 1 - retry) <= fuel)%nat ->
  (0 <= retry)%Z ->
  forall fuel', (fuel <= fuel')%nat ->
  retry_loop fuel' self max_retry response retry w =
  retry_loop fuel self max_retry response retry w.
Proof.
  revert retry response w.
  induction fuel as [|fuel IH]; intros retry response w Hfuel Hretry fuel' Hle.
  - assert ((retry <=? max_retry)%Z = false) as Hcond by (apply Z.leb_gt; lia).
    destruct fuel'; simpl retry_loop; rewrite Hcond, andb_false_r; reflexivity.
  - destruct fuel' as [|fuel']; [lia |]. simpl retry_loop.
    destruct (bool_decide (response = None) && (retry <=? max_retry)%Z) eqn:Hcond;
      [| reflexivity].
    apply andb_prop in Hcond as [_ Hcond]. apply Z.leb_le in Hcond.
    unfold mbind, Py_bind, bind.
    destruct (receive_message self None false w) as [[r| |] w']; try reflexivity.
    apply IH; lia.
Qed.

End Retry.

(** C5 (as the code has it). With no process handle, [send_message],
    [receive_message], [send_and_receive], and [receive_with_retry] with a
    non-negative [max_retry], raise the [ValueError] that asks to start the
    server first, and the world is exactly as before: nothing spawned,
    nothing requested, nothing written. *)
Theorem transport_requires_started {Obj : Type} {codec : Codec Obj}
  (self : PKLServer) (w : World) (msg_obj : Obj) (timeout : option Z)
  (empty_break : bool) (max_retry : Z) :
  _process self = None ->
  (0 <= max_retry)%Z ->
  send_message self msg_obj w = (Raised not_started, w) /\
  receive_message self timeout empty_break w = (Raised not_started, w) /\
  send_and_receive self msg_obj w = (Raised not_started, w) /\
  receive_with_retry self max_retry w = (Raised not_started, w).
Proof.
  intros Hp Hmax.
  split; [apply send_message_not_started; assumption |].
  split; [apply receive_message_not_started; assumption |].
  split.
  - unfold send_and_receive, mbind, Py_bind, bind.
    rewrite send_message_not_started by assumption. reflexivity.
  - unfold receive_with_retry, mbind, Py_bind, bind.
    replace (Z.to_nat (max_retry + 1)) with (S (Z.to_nat max_retry)) by lia.
    rewrite retry_loop_enter by assumption.
    rewrite receive_message_not_started by assumption. reflexivity.
Qed.

Lemma transport_requires_started_witness :
  send_message (codec := fixint_codec) idle_server 5%N fresh_world =
    (Raised not_started, fresh_world) /\
  receive_message (codec := fixint_codec) idle_server (Some 5%Z) true fresh_world =
    (Raised not_started, fresh_world) /\
  send_and_receive (codec := fixint_codec) idle_server 5%N fresh_world =
    (Raised not_started, fresh_world) /\
  receive_with_retry (codec := fixint_codec) idle_server 3 fresh_world =
    (Raised not_started, fresh_world).
Proof.
  apply (transport_requires_started (codec := fixint_codec) idle_server
           fresh_world 5%N (Some 5%Z) true 3); [reflexivity | lia].
Defined.

(** With a negative [max_retry] and no process handle, [receive_with_retry]
    never reaches [receive_message]: it returns [None] and raises nothing. *)
Lemma receive_with_retry_negative_not_started :
  _process idle_server = None /\
  receive_with_retry (codec := fixint_codec) idle_server (-1) fresh_world =
    (Returned None, fresh_world).
Proof. split; reflexivity. Qed.

(** C3. What [receive_with_retry] does, for every [max_retry].  With a
    negative [max_retry] nothing is attempted and [None] is returned.
    Otherwise [receive_message] is called exactly once: an exception of
    that call passes through; a result, the empty list included, is
    returned without a second attempt; and the warning is emitted exactly
    when [max_retry] is 1, a response having been obtained or not. *)
Theorem receive_with_retry_single_attempt {Obj : Type} {codec : Codec Obj}
  (self : PKLServer) (max_retry : Z) (w : World) :
  receive_with_retry self max_retry w =
    if (max_retry <? 0)%Z
    then (Returned None, w)
    else
      match receive_message self None false w with
      | (Returned r, w1) =>
          (Returned r,
           if (1 =? max_retry)%Z then log (Warn "Max retry reached.") w1 else w1)
      | (Raised e, w1) => (Raised e, w1)
      | (Blocked, w1) => (Blocked, w1)
      end.
Proof.
  unfold receive_with_retry, mbind, Py_bind, bind.
  destruct (Z.ltb_spec max_retry 0) as [Hneg|Hmax].
  - replace (Z.to_nat (max_retry + 1)) with 0 by lia. simpl retry_loop.
    assert ((0 <=? max_retry)%Z = false) as -> by (apply Z.leb_gt; assumption).
    unfold ret. cbv beta iota.
    assert ((0 =? max_retry)%Z = false) as -> by (apply Z.eqb_neq; lia).
    reflexivity.
  - replace (Z.to_nat (max_retry + 1)) with (S (Z.to_nat max_retry)) by lia.
    rewrite retry_loop_enter by assumption.
    destruct (receive_message self None false w) as [[[responses|]| |] w1] eqn:Hrecv;
      try reflexivity.
    + rewrite retry_loop_leave. destruct (1 =? max_retry)%Z; reflexivity.
    + exfalso. exact (receive_message_returns_list _ _ _ _ _ Hrecv eq_refl).
Qed.

(** The child answers the first attempt with the messages 1 and 2;
    [receive_with_retry(max_retry=1)] returns them and warns all the same. *)
Lemma receive_with_retry_single_attempt_witness :
  receive_with_retry (codec := fixint_codec) running_server 1
    (running_world [ev_reply]) =
  (Returned (Some [1%N; 2%N]),
   mkWorld (fs installed_world) [engine] []
     [Select 0 None; Warn "Max retry reached."]).
Proof.
  rewrite (receive_with_retry_single_attempt (codec := fixint_codec)
             running_server 1 (running_world [ev_reply])).
  reflexivity.
Defined.

(** A child whose stdout is at end of file: the one attempt yields the
    empty list, which is returned as it is, with [max_retry = 3], without a
    second attempt and without a warning. *)
Example receive_with_retry_empty_result :
  receive_with_retry (codec := fixint_codec) running_server 3
    (running_world [ev_eof; ev_reply]) =
  (Returned (Some []),
   mkWorld (fs installed_world) [engine] [ev_reply] [Select 0 None]).
Proof. reflexivity. Qed.

(** ** The request id counter *)

Lemma request_ids_seq (n : nat) (self : PKLServer) :
  request_ids n self =
    map (fun i => (next_request_id self + Z.of_nat i)%Z) (seq 0 n).
Proof.
  revert self. induction n as [|n IH]; intros self; [reflexivity |].
  simpl. f_equal; [lia |].
  rewrite IH, <- seq_shift, map_map. simpl.
  apply map_ext. intros i. lia.
Qed.

(** C9. A server just constructed has its counter at 1 and its first [n]
    calls of [get_request_id] hand out 1, 2, ..., n; on any server, a call
    returns the counter and the next call returns one more; and
    [terminate] followed by [start_process] gives a server with a process
    and the counter where it was. *)
Theorem request_id_counter (h : Host) (w0 w0' w w1 w2 : World)
  (fresh self self1 self2 : PKLServer) (debug : bool) (n : nat) :
  __init__ h w0 = (Returned fresh, w0') ->
  terminate self w = (Returned self1, w1) ->
  start_process h self1 debug w1 = (Returned self2, w2) ->
  next_request_id fresh = 1%Z /\
  request_ids n fresh = map Z.of_nat (seq 1 n) /\
  fst (get_request_id fresh) = 1%Z /\
  fst (get_request_id self) = next_request_id self /\
  fst (get_request_id (snd (get_request_id self))) =
    (fst (get_request_id self) + 1)%Z /\
  _process self1 = None /\
  _process self2 <> None /\
  next_request_id self2 = next_request_id self /\
  fst (get_request_id self2) = fst (get_request_id self).
Proof.
  intros Hinit Hterm Hstart.
  assert (Hfresh : next_request_id fresh = 1%Z).
  { unfold __init__, mbind, Py_bind, bind, ret in Hinit.
    destruct (get_binary_path h w0) as [[p| |] w']; [| discriminate..].
    injection Hinit as <- _. reflexivity. }
  assert (Hself1 : self1 = set_process None self).
  { unfold terminate in Hterm. destruct (_process self); [| discriminate].
    unfold mbind, Py_bind, bind, emit, modify, ret in Hterm.
    injection Hterm as <- _. reflexivity. }
  assert (Hself2 : exists p, self2 = set_process (Some p) self1).
  { unfold start_process in Hstart. subst self1. simpl _process in Hstart.
    destruct (popen_error h); [discriminate |].
    unfold mbind, Py_bind, bind, emit, modify, gets, ret in Hstart.
    injection Hstart as <- _. eauto. }
  destruct Hself2 as [p ->]. subst self1. simpl.
  split; [assumption |].
  split.
  { rewrite request_ids_seq, Hfresh, <- seq_shift, map_map.
    apply map_ext. intros i. lia. }
  repeat split; try assumption; discriminate.
Qed.

Lemma request_id_counter_witness :
  next_request_id idle_server = 1%Z /\
  request_ids 3 idle_server = [1; 2; 3]%Z /\
  fst (get_request_id idle_server) = 1%Z /\
  fst (get_request_id (mkServer (Some engine) server_cmd 7)) = 7%Z /\
  fst (get_request_id (snd (get_request_id (mkServer (Some engine) server_cmd 7)))) =
    (7 + 1)%Z /\
  _process (mkServer None server_cmd 7) = None /\
  _process (mkServer (Some (mkPopen 1 server_cmd ∅)) server_cmd 7) <> None /\
  next_request_id (mkServer (Some (mkPopen 1 server_cmd ∅)) server_cmd 7) = 7%Z /\
  fst (get_request_id (mkServer (Some (mkPopen 1 server_cmd ∅)) server_cmd 7)) = 7%Z.
Proof.
  apply (request_id_counter linux_host installed_world
           (with_execute_bit linux_binary_path (File 33188 [x7f; x45; x4c; x46])
              installed_world)
           (running_world [])
           (mkWorld (fs installed_world) [engine] [] [Terminate 0; Wait 0])
           (mkWorld (fs installed_world) [engine; mkPopen 1 server_cmd ∅] []
              [Terminate 0; Wait 0; Spawn (mkPopen 1 server_cmd ∅);
               SetNonBlocking 1 Stdout; SetNonBlocking 1 Stderr])
           idle_server (mkServer (Some engine) server_cmd 7)
           (mkServer None server_cmd 7)
           (mkServer (Some (mkPopen 1 server_cmd ∅)) server_cmd 7) false 3);
    reflexivity.
Defined.

(** * Further properties *)

(** ** Which binaries the resolver can name *)

(** The key that is looked up always has two components: on the way to the
    third, the operating system has been renamed. *)
Lemma binary_key_two_components (h : Host) (w w' : World) (key : list string) :
  binary_key h w = (Returned key, w') ->
  exists os_name arch, key = [os_name; arch].
Proof.
  unfold binary_key, detect_system, is_alpine_linux, gets, mbind, Py_bind, bind, ret.
  destruct (String.eqb (lower (platform_system h)) "linux") eqn:Hos; cbv beta iota.
  - destruct (isfile alpine_release (fs w)) eqn:Hmarker.
    + case_bool_decide as Hk; [discriminate Hk |]. intros [= <- _]. eauto.
    + case_bool_decide as Hk; cbv beta iota; rewrite ?Hmarker;
        intros [= <- _]; eauto.
  - case_bool_decide as Hk; cbv beta iota.
    + injection Hk as Hk _. rewrite Hk in Hos. discriminate Hos.
    + intros [= <- _]. eauto.
Qed.

Lemma BINARIES_two_components (os_name arch f : string) :
  BINARIES !! [os_name; arch] = Some f -> f ∈ plain_binaries.
Proof.
  intros Hf. apply elem_of_list_to_map_2 in Hf.
  unfold plain_binaries.
  repeat (apply elem_of_cons in Hf as [Hf|Hf];
          [injection Hf as _ _ ->; set_solver |]);
    try (apply elem_of_cons in Hf as [Hf|Hf]; [discriminate Hf |]).
  apply elem_of_nil in Hf. contradiction.
Qed.

(** No host gets the alpine binary: whenever [get_binary_path] returns,
    the file it names is one of the four glibc and macOS binaries. *)
Theorem get_binary_path_never_alpine (h : Host) (w w' : World) (p : path) :
  get_binary_path h w = (Returned p, w') ->
  name p ∈ plain_binaries /\ name p <> "pkl-alpine-linux-amd64".
Proof.
  intros Hrun.
  destruct (get_binary_path_returned h w w' p Hrun)
    as (key & f & n & Hkey & Hf & _ & Hname & _).
  destruct (binary_key_two_components h w w key Hkey) as (os_name & arch & ->).
  apply BINARIES_two_components in Hf. rewrite Hname.
  split; [assumption |].
  intros ->. unfold plain_binaries in Hf.
  repeat (apply elem_of_cons in Hf as [Hf|Hf]; [discriminate Hf |]).
  apply elem_of_nil in Hf. contradiction.
Qed.

Lemma get_binary_path_never_alpine_witness :
  name linux_binary_path ∈ plain_binaries /\
  name linux_binary_path <> "pkl-alpine-linux-amd64".
Proof.
  apply (get_binary_path_never_alpine linux_host installed_world
           (with_execute_bit linux_binary_path (File 33188 [x7f; x45; x4c; x46])
              installed_world) linux_binary_path).
  reflexivity.
Defined.

Lemma BINARIES_no_alpine_system (arch : string) :
  BINARIES !! ["alpine"; arch] = None.
Proof.
  apply not_elem_of_list_to_map_1. simpl.
  intros Hin.
  repeat (apply elem_of_cons in Hin as [Hin|Hin]; [discriminate Hin |]).
  apply elem_of_nil in Hin. contradiction.
Qed.

(** On a Linux host with the alpine marker, whatever the architecture,
    [get_binary_path] raises [OSError] and does nothing else: the glibc
    binaries of the table are not used there either. *)
Theorem get_binary_path_alpine_any_architecture (h : Host) (w : World) :
  lower (platform_system h) = "linux" ->
  isfile alpine_release (fs w) = true ->
  get_binary_path h w =
    (Raised (OSError "No compatible binary found for your system."), w).
Proof.
  intros Hos Hmarker.
  apply (get_binary_path_unlisted h w ["alpine"; platform_architecture h]).
  - apply binary_key_alpine; assumption.
  - apply BINARIES_no_alpine_system.
Qed.

Lemma get_binary_path_alpine_any_architecture_witness :
  get_binary_path linux_aarch64_host alpine_world =
    (Raised (OSError "No compatible binary found for your system."), alpine_world).
Proof.
  apply (get_binary_path_alpine_any_architecture linux_aarch64_host alpine_world);
    reflexivity.
Defined.

(** When the detected pair is not in the table, on a host that is not
    Linux or has no alpine marker, [get_binary_path] raises [OSError] and
    leaves the world as it is: no directory made, no request sent. *)
Theorem get_binary_path_unsupported_host (h : Host) (w : World) :
  lower (platform_system h) <> "linux" \/ isfile alpine_release (fs w) = false ->
  BINARIES !! [lower (platform_system h); platform_architecture h] = None ->
  get_binary_path h w =
    (Raised (OSError "No compatible binary found for your system."), w).
Proof.
  intros Hhost Hnone.
  apply (get_binary_path_unlisted h w
           [lower (platform_system h); platform_architecture h]);
    [| assumption].
  destruct Hhost as [Hos|Hmarker]; [| apply binary_key_plain; assumption].
  unfold binary_key, detect_system, is_alpine_linux, gets, mbind, Py_bind, bind, ret.
  apply String.eqb_neq in Hos. rewrite Hos. cbv beta iota.
  case_bool_decide as Hk; [| reflexivity].
  injection Hk as Hk _. apply String.eqb_neq in Hos. contradiction.
Qed.

Lemma get_binary_path_unsupported_host_witness :
  get_binary_path windows_host alpine_world =
    (Raised (OSError "No compatible binary found for your system."), alpine_world).
Proof.
  apply (get_binary_path_unsupported_host windows_host alpine_world).
  - left. discriminate.
  - reflexivity.
Defined.

(** ** What a call of the resolver leaves behind *)

Lemma local_binary_path_home (h : Host) (f : string) :
  local_binary_path h f = home h ++ [".pkl"; "bin"; PKL_VERSION; f].
Proof. unfold local_binary_path. simpl. rewrite <- app_assoc. reflexivity. Qed.

(** Whenever [get_binary_path] returns, the path it returns is
    <home>/.pkl/bin/0.25.2/<file>, and there is something at that path
    with the owner-execute bit set. *)
Theorem get_binary_path_postcondition (h : Host) (w w' : World) (p : path) :
  get_binary_path h w = (Returned p, w') ->
  exists f n,
    p = home h ++ [".pkl"; "bin"; "0.25.2"; f] /\
    fs w' !! p = Some n /\
    Z.testbit (node_mode n) 6 = true.
Proof.
  intros Hrun.
  destruct (get_binary_path_returned h w w' p Hrun)
    as (key & f & n & _ & _ & -> & _ & Hn & _).
  exists f, (set_mode (Z.lor (node_mode n) S_IXUSR) n).
  split; [apply local_binary_path_home |].
  split; [assumption |].
  rewrite node_mode_set_mode. apply lor_S_IXUSR_set.
Qed.

Lemma get_binary_path_postcondition_witness :
  exists f n,
    linux_binary_path = home linux_host ++ [".pkl"; "bin"; "0.25.2"; f] /\
    fs (snd (get_binary_path linux_host fresh_world)) !! linux_binary_path = Some n /\
    Z.testbit (node_mode n) 6 = true.
Proof.
  apply (get_binary_path_postcondition linux_host fresh_world
           (snd (get_binary_path linux_host fresh_world)) linux_binary_path).
  reflexivity.
Defined.

Lemma get_binary_path_second_call_witness :
  get_binary_path linux_host (snd (get_binary_path linux_host fresh_world)) =
    (Returned linux_binary_path, snd (get_binary_path linux_host fresh_world)).
Proof.
  apply (get_binary_path_second_call linux_host fresh_world
           (snd (get_binary_path linux_host fresh_world)) linux_binary_path).
  reflexivity.
Defined.

Lemma makedirs_error (todo above : path) (mask : Z) (m : gmap path node) (e : exn) :
  makedirs above todo mask m = inl e ->
  e = FileExistsError \/ e = NotADirectoryError.
Proof.
  revert above m. induction todo as [|d todo IH]; intros above m; simpl;
    [discriminate |].
  destruct (m !! (above ++ [d])) as [[md|md c]|]; eauto.
  destruct todo; intros [= <-]; auto.
Qed.

(** When a file stands where a directory of the local path has to be, the
    resolver raises the [OSError] of [mkdir] before it asks for anything:
    no request is sent and the world is as before. *)
Theorem get_binary_path_directory_blocked (h : Host) (w : World)
  (key : list string) (f : string) (e : exn) :
  binary_key h w = (Returned key, w) ->
  BINARIES !! key = Some f ->
  fs w !! local_binary_path h f = None ->
  makedirs [] (parent (local_binary_path h f)) (umask h) (fs w) = inl e ->
  get_binary_path h w = (Raised e, w) /\ is_OSError e = true.
Proof.
  intros Hkey Hf Hn Hmk. split.
  - unfold get_binary_path, mbind, Py_bind, bind.
    rewrite Hkey, Hf. cbv beta iota zeta.
    unfold gets, path_exists. rewrite Hn. cbv beta iota.
    change (negb false) with true. cbv beta iota.
    unfold mkdir_parents, lift_fs. rewrite Hmk. reflexivity.
  - destruct (makedirs_error _ _ _ _ _ Hmk) as [-> | ->]; reflexivity.
Qed.

Lemma get_binary_path_directory_blocked_witness :
  get_binary_path linux_host blocked_world = (Raised NotADirectoryError, blocked_world) /\
  is_OSError NotADirectoryError = true.
Proof.
  apply (get_binary_path_directory_blocked linux_host blocked_world
           ["linux"; "64bit"] "pkl-linux-amd64" NotADirectoryError);
    reflexivity.
Defined.

Lemma lift_fs_same (f : gmap path node -> exn + gmap path node)
  (w w' : World) (o : outcome unit) :
  lift_fs f w = (o, w') ->
  _PROCESSES w' = _PROCESSES w /\ pending w' = pending w /\ effects w' = effects w.
Proof.
  unfold lift_fs. destruct (f (fs w)); intros [= <- <-]; auto.
Qed.

Lemma os_stat_mode_same (p : path) (w w' : World) (o : outcome Z) :
  os_stat_mode p w = (o, w') -> w' = w.
Proof.
  unfold os_stat_mode. destruct (fs w !! p); intros [= <- <-]; reflexivity.
Qed.

Lemma download_binary_one_request (h : Host) (f : string) (p : path)
  (w w' : World) (o : outcome unit) :
  download_binary h f p w = (o, w') ->
  _PROCESSES w' = _PROCESSES w /\ pending w' = pending w /\
  effects w' = effects w ++ [HttpGet (download_url f)].
Proof.
  unfold download_binary, requests_get, mbind, Py_bind, bind, emit, modify.
  fold (download_url f).
  destruct (http h (download_url f)) as [|status body].
  - intros [= <- <-]. auto.
  - unfold ret. cbv beta iota. simpl snd. unfold write_file. intros Hw.
    apply lift_fs_same in Hw. simpl in Hw. exact Hw.
Qed.

Lemma get_binary_path_frame (h : Host) (w : World) :
  _PROCESSES (snd (get_binary_path h w)) = _PROCESSES w /\
  pending (snd (get_binary_path h w)) = pending w /\
  (effects (snd (get_binary_path h w)) = effects w \/
   exists f, effects (snd (get_binary_path h w)) =
             effects w ++ [HttpGet (download_url f)]).
Proof.
  destruct (binary_key_reads h w) as [key Hkey].
  unfold get_binary_path, mbind, Py_bind, bind. rewrite Hkey.
  destruct (BINARIES !! key) as [f|]; [| simpl; auto].
  cbv zeta. unfold gets. cbv beta iota.
  assert (Hend : forall w1 : World,
    _PROCESSES w1 = _PROCESSES w -> pending w1 = pending w ->
    (effects w1 = effects w \/
     exists f, effects w1 = effects w ++ [HttpGet (download_url f)]) ->
    let w2 := snd (let (o, w') := os_stat_mode (local_binary_path h f) w1 in
                   match o with
                   | Returned a =>
                       let (o0, w'0) :=
                         os_chmod (local_binary_path h f) (Z.lor a S_IXUSR) w' in
                       match o0 with
                       | Returned _ => ret (local_binary_path h f) w'0
                       | Raised e => (Raised e, w'0)
                       | Blocked => (Blocked, w'0)
                       end
                   | Raised e => (Raised e, w')
                   | Blocked => (Blocked, w')
                   end) in
    _PROCESSES w2 = _PROCESSES w /\ pending w2 = pending w /\
    (effects w2 = effects w \/
     exists f, effects w2 = effects w ++ [HttpGet (download_url f)])).
  { intros w1 Hreg Hpend Heff.
    destruct (os_stat_mode (local_binary_path h f) w1) as [[cur| |] w2] eqn:Hstat;
      apply os_stat_mode_same in Hstat as ->; [| simpl; auto..].
    destruct (os_chmod (local_binary_path h f) (Z.lor cur S_IXUSR) w1)
      as [[[]| |] w3] eqn:Hchmod;
      unfold os_chmod in Hchmod;
      apply lift_fs_same in Hchmod as (Hreg3 & Hpend3 & Heff3);
      simpl; rewrite Hreg3, Hpend3, Heff3; auto. }
  destruct (path_exists (local_binary_path h f) (fs w)); cbn [negb]; cbv iota.
  - unfold ret at 1. cbv beta iota. apply Hend; auto.
  - cbv beta.
    destruct (mkdir_parents h (parent (local_binary_path h f)) w)
      as [[[]| |] w0] eqn:Hmk;
      unfold mkdir_parents in Hmk;
      apply lift_fs_same in Hmk as (Hreg & Hpend & Heff);
      [| simpl; auto..].
    destruct (download_binary h f (local_binary_path h f) w0)
      as [[[]| |] w1] eqn:Hdl;
      apply download_binary_one_request in Hdl as (Hreg1 & Hpend1 & Heff1);
      rewrite Hreg in Hreg1; rewrite Hpend in Hpend1; rewrite Heff in Heff1;
      [apply Hend; eauto | simpl; eauto..].
Qed.

(** A call of [get_binary_path], however it ends, sends at most one
    request, and leaves the registry of children and the pipes alone. *)
Theorem get_binary_path_at_most_one_request (h : Host) (w : World) :
  _PROCESSES (snd (get_binary_path h w)) = _PROCESSES w /\
  pending (snd (get_binary_path h w)) = pending w /\
  (effects (snd (get_binary_path h w)) = effects w \/
   exists f, effects (snd (get_binary_path h w)) =
             effects w ++ [HttpGet (download_url f)]).
Proof. apply get_binary_path_frame. Qed.

(** ** Starting and stopping the child *)

(** The world after [start_process] created the child [p]. *)
Lemma start_process_cases (h : Host) (self s1 : PKLServer) (debug : bool)
  (w w1 : World) :
  start_process h self debug w = (Returned s1, w1) ->
  (_process self <> None /\ s1 = self /\ w1 = w) \/
  (_process self = None /\
   exists p,
     p = mkPopen (length (_PROCESSES w)) (_cmd self)
           (if debug then {[ "PKL_DEBUG" := "1" ]} else environ h) /\
     s1 = set_process (Some p) self /\
     w1 = set_PROCESSES (_PROCESSES w ++ [p])
            (set_effects
               (effects w ++ [Spawn p; SetNonBlocking (pid p) Stdout;
                              SetNonBlocking (pid p) Stderr]) w)).
Proof.
  unfold start_process. destruct (_process self) as [p0|] eqn:Hp.
  - intros [= <- <-]. left. repeat split. discriminate.
  - destruct (popen_error h); [discriminate |].
    unfold mbind, Py_bind, bind, gets, emit, modify, ret. cbv beta iota.
    intros [= <- <-]. right. split; [reflexivity |].
    eexists. split; [reflexivity |]. split; [reflexivity |].
    unfold set_PROCESSES, log. simpl. rewrite <- !app_assoc. reflexivity.
Qed.

(** Starting a server that was started is a no-op: after a start that
    returned, another start, with either debug flag, returns the same
    server and leaves the world as it is; no second child is created. *)
Theorem start_process_twice (h : Host) (self s1 : PKLServer) (debug again : bool)
  (w w1 : World) :
  start_process h self debug w = (Returned s1, w1) ->
  _process s1 <> None /\
  start_process h s1 again w1 = (Returned s1, w1).
Proof.
  intros Hstart.
  assert (Hsome : _process s1 <> None).
  { destruct (start_process_cases _ _ _ _ _ _ Hstart)
      as [(Hp & -> & _)|(_ & p & _ & -> & _)]; [assumption | discriminate]. }
  split; [assumption |].
  unfold start_process. destruct (_process s1); [reflexivity | contradiction].
Qed.

Lemma start_process_twice_witness :
  _process (mkServer (Some engine) server_cmd 1) <> None /\
  start_process linux_host (mkServer (Some engine) server_cmd 1) true
    (mkWorld (fs installed_world) [engine] []
       [Spawn engine; SetNonBlocking 0 Stdout; SetNonBlocking 0 Stderr]) =
  (Returned (mkServer (Some engine) server_cmd 1),
   mkWorld (fs installed_world) [engine] []
     [Spawn engine; SetNonBlocking 0 Stdout; SetNonBlocking 0 Stderr]).
Proof.
  apply (start_process_twice linux_host idle_server
           (mkServer (Some engine) server_cmd 1) false true
           (mkWorld (fs installed_world) [] [] [])).
  reflexivity.
Defined.

(** With [debug] set, [start_process] on a server without a handle does
    exactly this: it spawns one child, with the server's command and an
    environment that holds PKL_DEBUG=1 and nothing else (no variable of
    the parent is passed on), sets the child's stdout and then its stderr
    non-blocking, appends the child to the registry and keeps it as the
    server's handle. *)
Theorem start_process_debug_environment (h : Host) (self s1 : PKLServer)
  (w w1 : World) :
  _process self = None ->
  start_process h self true w = (Returned s1, w1) ->
  exists p,
    _process s1 = Some p /\
    args p = _cmd self /\
    effects w1 =
      effects w ++ [Spawn p; SetNonBlocking (pid p) Stdout;
                    SetNonBlocking (pid p) Stderr] /\
    _PROCESSES w1 = _PROCESSES w ++ [p] /\
    child_env p !! "PKL_DEBUG" = Some "1" /\
    forall k, k <> "PKL_DEBUG" -> child_env p !! k = None.
Proof.
  intros Hnone Hstart.
  destruct (start_process_cases _ _ _ _ _ _ Hstart)
    as [(Hp & _)|(_ & p & -> & -> & ->)]; [contradiction |].
  eexists. split; [reflexivity |]. simpl.
  split; [reflexivity |]. split; [reflexivity |]. split; [reflexivity |].
  split; [apply lookup_singleton_eq |].
  intros k Hk. apply lookup_singleton_ne. congruence.
Qed.

Lemma start_process_debug_environment_witness :
  exists p,
    Some (mkPopen 0 server_cmd {[ "PKL_DEBUG" := "1" ]}) = Some p /\
    args p = server_cmd /\
    [Spawn (mkPopen 0 server_cmd {[ "PKL_DEBUG" := "1" ]});
     SetNonBlocking 0 Stdout; SetNonBlocking 0 Stderr] =
      [] ++ [Spawn p; SetNonBlocking (pid p) Stdout;
             SetNonBlocking (pid p) Stderr] /\
    [mkPopen 0 server_cmd {[ "PKL_DEBUG" := "1" ]}] = [] ++ [p] /\
    child_env p !! "PKL_DEBUG" = Some "1" /\
    forall k, k <> "PKL_DEBUG" -> child_env p !! k = None.
Proof.
  apply (start_process_debug_environment linux_host idle_server
           (mkServer (Some (mkPopen 0 server_cmd {[ "PKL_DEBUG" := "1" ]})) server_cmd 1)
           (mkWorld (fs installed_world) [] [] [])
           (mkWorld (fs installed_world)
              [mkPopen 0 server_cmd {[ "PKL_DEBUG" := "1" ]}] []
              [Spawn (mkPopen 0 server_cmd {[ "PKL_DEBUG" := "1" ]});
               SetNonBlocking 0 Stdout; SetNonBlocking 0 Stderr]));
    reflexivity.
Defined.

(** ** The registry of children *)

(** [start_process] keeps the registry in order: every child stays where
    it is, named by its place; the handle of the server that was started,
    and the handle of any other server, is in the registry afterwards;
    and a child that is created gets a name that no registered child has,
    so a restart never reuses the handle of a terminated child. *)
Theorem start_process_keeps_registry (h : Host) (self other s1 : PKLServer)
  (debug : bool) (w w1 : World) :
  registry_indexed w ->
  registered self w ->
  registered other w ->
  start_process h self debug w = (Returned s1, w1) ->
  registry_indexed w1 /\
  registered s1 w1 /\
  registered other w1 /\
  (forall i q, _PROCESSES w !! i = Some q -> _PROCESSES w1 !! i = Some q) /\
  (_process self = None ->
   exists p, _process s1 = Some p /\
             forall q, q ∈ _PROCESSES w -> pid q <> pid p).
Proof.
  intros Hix Hself Hother Hstart.
  destruct (start_process_cases _ _ _ _ _ _ Hstart)
    as [(Hp & -> & ->)|(Hnone & p & Hpdef & -> & ->)].
  - repeat split; try assumption; [auto | contradiction].
  - assert (Hpid : pid p = length (_PROCESSES w)) by (subst p; reflexivity).
    unfold registry_indexed, registered. simpl.
    split; [| split; [| split; [| split]]].
    + intros i q Hq. apply lookup_app_Some in Hq as [Hq|[Hlen Hq]].
      * apply Hix. assumption.
      * destruct (i - length (_PROCESSES w)) as [|k] eqn:Hk; [| discriminate Hq].
        injection Hq as <-. lia.
    + intros q [= <-]. rewrite Hpid. apply list_lookup_middle. reflexivity.
    + intros q Hq. apply lookup_app_l_Some. apply Hother. assumption.
    + intros i q Hq. apply lookup_app_l_Some. assumption.
    + intros _. exists p. split; [reflexivity |].
      intros q Hq. apply list_elem_of_lookup in Hq as [i Hi].
      rewrite (Hix i q Hi), Hpid.
      apply lookup_lt_Some in Hi. lia.
Qed.

Lemma start_process_keeps_registry_witness :
  registry_indexed (running_world []) /\
  registered idle_server (running_world []) /\
  registered running_server (running_world []) /\
  exists p, Some (mkPopen 1 server_cmd ∅) = Some p /\
            forall q, q ∈ [engine] -> pid q <> pid p.
Proof.
  assert (Hix : registry_indexed (running_world [])).
  { intros [|[|i]] p; simpl; [intros [= <-]; reflexivity | discriminate..]. }
  assert (Hidle : registered idle_server (running_world []))
    by (intros p; discriminate).
  assert (Hrun : registered running_server (running_world []))
    by (intros p [= <-]; reflexivity).
  split; [exact Hix |]. split; [exact Hidle |]. split; [exact Hrun |].
  destruct (start_process_keeps_registry linux_host idle_server running_server
              (mkServer (Some (mkPopen 1 server_cmd ∅)) server_cmd 1) false
              (running_world [])
              (mkWorld (fs installed_world) [engine; mkPopen 1 server_cmd ∅] []
                 [Spawn (mkPopen 1 server_cmd ∅); SetNonBlocking 1 Stdout;
                  SetNonBlocking 1 Stderr])
              Hix Hidle Hrun eq_refl) as (_ & _ & _ & _ & Hfresh).
  exact (Hfresh eq_refl).
Defined.

Lemma terminate_each_run (processes : list Popen) (w : World) :
  terminate_each processes w =
    (Returned tt,
     set_effects
       (effects w ++
        flat_map (fun p => [Terminate (pid p); Wait (pid p)]) processes) w).
Proof.
  revert w. induction processes as [|p processes IH]; intros w.
  - simpl. rewrite app_nil_r. destruct w; reflexivity.
  - simpl. unfold mbind, Py_bind, bind, emit, modify. cbv beta iota.
    rewrite IH. simpl. rewrite <- !app_assoc. reflexivity.
Qed.

(** The exit hook terminates, and waits for, every child in the registry,
    in the order in which they were started, and returns; so a server
    whose handle is registered has its child terminated at exit.  The
    registry itself is not emptied. *)
Theorem terminate_processes_reaches_all (self : PKLServer) (p : Popen) (w : World) :
  _process self = Some p ->
  registered self w ->
  exists w',
    terminate_processes w = (Returned tt, w') /\
    effects w' =
      effects w ++
      flat_map (fun q => [Terminate (pid q); Wait (pid q)]) (_PROCESSES w) /\
    _PROCESSES w' = _PROCESSES w /\
    Terminate (pid p) ∈ effects w' /\
    Wait (pid p) ∈ effects w'.
Proof.
  intros Hp Hreg.
  eexists. split.
  { unfold terminate_processes, mbind, Py_bind, bind, gets. cbv beta iota.
    apply terminate_each_run. }
  simpl. split; [reflexivity |]. split; [reflexivity |].
  specialize (Hreg p Hp). apply list_elem_of_lookup_2 in Hreg.
  split; apply elem_of_app; right; apply list_elem_of_In, in_flat_map;
    exists p; (split; [apply list_elem_of_In; assumption | simpl; auto]).
Qed.

Lemma terminate_processes_reaches_all_witness :
  exists w',
    terminate_processes
      (mkWorld (fs installed_world) [mkPopen 0 server_cmd ∅; mkPopen 1 server_cmd ∅] []
         [Terminate 0; Wait 0]) = (Returned tt, w') /\
    effects w' = [Terminate 0; Wait 0] ++ [Terminate 0; Wait 0; Terminate 1; Wait 1] /\
    _PROCESSES w' = [mkPopen 0 server_cmd ∅; mkPopen 1 server_cmd ∅] /\
    Terminate 1 ∈ effects w' /\
    Wait 1 ∈ effects w'.
Proof.
  apply (terminate_processes_reaches_all
           (mkServer (Some (mkPopen 1 server_cmd ∅)) server_cmd 1)
           (mkPopen 1 server_cmd ∅)
           (mkWorld (fs installed_world)
              [mkPopen 0 server_cmd ∅; mkPopen 1 server_cmd ∅] []
              [Terminate 0; Wait 0])).
  - reflexivity.
  - intros q [= <-]. reflexivity.
Defined.

(** ** Before the start and after the end *)

Lemma terminate_cases (self s1 : PKLServer) (w w1 : World) :
  terminate self w = (Returned s1, w1) ->
  exists p,
    _process self = Some p /\
    s1 = set_process None self /\
    w1 = set_effects (effects w ++ [Terminate (pid p); Wait (pid p)]) w.
Proof.
  unfold terminate. destruct (_process self) as [p|]; [| discriminate].
  unfold mbind, Py_bind, bind, emit, modify, ret. cbv beta iota.
  intros [= <- <-]. exists p. repeat split.
  unfold log. simpl. rewrite <- app_assoc. reflexivity.
Qed.

(** After [terminate] the server is as if never started: the child was
    terminated and waited for, it stays in the registry, the handle is
    gone, a second [terminate] raises [AttributeError], and sending or
    receiving raises the [ValueError] of a server not started; none of
    these failed calls does anything. *)
Theorem terminate_leaves_not_started {Obj : Type} {codec : Codec Obj}
  (self s1 : PKLServer) (w w1 : World) (msg_obj : Obj) (timeout : option Z)
  (empty_break : bool) :
  terminate self w = (Returned s1, w1) ->
  exists p,
    _process self = Some p /\
    effects w1 = effects w ++ [Terminate (pid p); Wait (pid p)] /\
    _PROCESSES w1 = _PROCESSES w /\
    _process s1 = None /\
    terminate s1 w1 =
      (Raised (AttributeError "'NoneType' object has no attribute 'terminate'"), w1) /\
    send_message s1 msg_obj w1 = (Raised not_started, w1) /\
    receive_message s1 timeout empty_break w1 = (Raised not_started, w1).
Proof.
  intros Hterm.
  destruct (terminate_cases _ _ _ _ Hterm) as (p & Hp & -> & ->).
  exists p. split; [assumption |]. split; [reflexivity |].
  split; [reflexivity |]. split; [reflexivity |].
  split; [reflexivity |].
  split; [apply send_message_not_started | apply receive_message_not_started];
    reflexivity.
Qed.

Lemma terminate_leaves_not_started_witness :
  exists p,
    _process running_server = Some p /\
    [Terminate 0; Wait 0] = [] ++ [Terminate (pid p); Wait (pid p)] /\
    [engine] = [engine] /\
    _process idle_server = None /\
    terminate idle_server
      (mkWorld (fs installed_world) [engine] [] [Terminate 0; Wait 0]) =
      (Raised (AttributeError "'NoneType' object has no attribute 'terminate'"),
       mkWorld (fs installed_world) [engine] [] [Terminate 0; Wait 0]) /\
    send_message (codec := fixint_codec) idle_server 5%N
      (mkWorld (fs installed_world) [engine] [] [Terminate 0; Wait 0]) =
      (Raised not_started,
       mkWorld (fs installed_world) [engine] [] [Terminate 0; Wait 0]) /\
    receive_message (codec := fixint_codec) idle_server None false
      (mkWorld (fs installed_world) [engine] [] [Terminate 0; Wait 0]) =
      (Raised not_started,
       mkWorld (fs installed_world) [engine] [] [Terminate 0; Wait 0]).
Proof.
  apply (terminate_leaves_not_started (codec := fixint_codec)
           running_server idle_server (running_world [])
           (mkWorld (fs installed_world) [engine] [] [Terminate 0; Wait 0])
           5%N None false).
  reflexivity.
Defined.

(** Constructing a server resolves the binary and starts nothing: the new
    server has no handle, its command is the resolved path followed by
    "server", the registry is as before, and sending or receiving on it
    raises the [ValueError] of a server not started. *)
Theorem init_starts_nothing {Obj : Type} {codec : Codec Obj}
  (h : Host) (w w' : World) (self : PKLServer) (msg_obj : Obj)
  (timeout : option Z) (empty_break : bool) :
  __init__ h w = (Returned self, w') ->
  _process self = None /\
  (exists p, _cmd self = [p; ["server"]] /\
             get_binary_path h w = (Returned p, w')) /\
  _PROCESSES w' = _PROCESSES w /\
  send_message self msg_obj w' = (Raised not_started, w') /\
  receive_message self timeout empty_break w' = (Raised not_started, w').
Proof.
  intros Hinit.
  pose proof (get_binary_path_frame h w) as (Hreg & _).
  unfold __init__, mbind, Py_bind, bind, ret in Hinit.
  destruct (get_binary_path h w) as [[p| |] w0] eqn:Hrun; [| discriminate..].
  injection Hinit as <- <-. simpl in Hreg.
  split; [reflexivity |].
  split; [exists p; split; reflexivity |].
  split; [assumption |].
  split; [apply send_message_not_started | apply receive_message_not_started];
    reflexivity.
Qed.

Lemma init_starts_nothing_witness :
  _process idle_server = None /\
  (exists p, _cmd idle_server = [p; ["server"]] /\
             get_binary_path linux_host fresh_world =
               (Returned p, snd (get_binary_path linux_host fresh_world))) /\
  _PROCESSES (snd (get_binary_path linux_host fresh_world)) = _PROCESSES fresh_world /\
  send_message (codec := fixint_codec) idle_server 5%N
    (snd (get_binary_path linux_host fresh_world)) =
    (Raised not_started, snd (get_binary_path linux_host fresh_world)) /\
  receive_message (codec := fixint_codec) idle_server (Some 1%Z) true
    (snd (get_binary_path linux_host fresh_world)) =
    (Raised not_started, snd (get_binary_path linux_host fresh_world)).
Proof.
  apply (init_starts_nothing (codec := fixint_codec) linux_host fresh_world
           (snd (get_binary_path linux_host fresh_world)) idle_server
           5%N (Some 1%Z) true).
  reflexivity.
Defined.

(** ** Receiving *)

Section ReceiveTurns.
Context {Obj : Type} {codec : Codec Obj}.

(** Turns that bring nothing, with the child alive, are passed over. *)
Lemma receive_loop_skip (child : nat) (timeout : option Z) (empty_break : bool)
  (before evs : list poll_event) (w : World) :
  select_rejects timeout = false ->
  forallb (fun e => no_output empty_break e && still_running e) before = true ->
  exists w2,
    receive_loop child timeout empty_break (before ++ evs) [] w =
    receive_loop child timeout empty_break evs [] w2.
Proof.
  intros Hsel Hbefore. revert w.
  induction before as [|e before IH]; intros w; [exists w; reflexivity |].
  simpl in Hbefore. apply andb_prop in Hbefore as [He Hbefore].
  apply andb_prop in He as [He Hrun].
  simpl app. rewrite receive_loop_turn by assumption. cbv zeta.
  destruct (no_output_turn empty_break e
              (set_pending (before ++ evs) (log (Select child timeout) w)) He)
    as (-> & w2 & -> & _).
  simpl. unfold still_running in Hrun.
  destruct (exit_status e); [discriminate |].
  apply IH. assumption.
Qed.


(** The turn in which stderr cannot be decoded ends the call. *)
Lemma receive_loop_undecodable (child : nat) (timeout : option Z)
  (empty_break : bool) (ev : poll_event) (rest : list poll_event) (w : World) :
  select_rejects timeout = false ->
  ready_stderr ev = true ->
  bytes_decode (stderr_data ev) = None ->
  exists w',
    receive_loop child timeout empty_break (ev :: rest) [] w =
      (Raised UnicodeDecodeError, w') /\
    pending w' = rest.
Proof.
  intros Hsel Herr Hbad.
  rewrite receive_loop_turn by assumption. cbv zeta.
  rewrite read_streams_select. unfold select. rewrite Herr, Hbad. cbv zeta.
  destruct (ready_stdout ev); simpl; rewrite andb_false_r;
    eexists; split; reflexivity.
Qed.

End ReceiveTurns.



(** When stderr delivers bytes that are not UTF-8, [receive_message]
    raises [UnicodeDecodeError]; a stdout chunk that was read in the same
    turn is gone with it, it is neither returned nor left for the next
    call. *)
Theorem receive_message_undecodable_stderr {Obj : Type} {codec : Codec Obj}
  (self : PKLServer) (p : Popen) (timeout : option Z) (empty_break : bool)
  (before : list poll_event) (ev : poll_event) (rest : list poll_event)
  (w : World) :
  _process self = Some p ->
  select_rejects timeout = false ->
  pending w = before ++ ev :: rest ->
  forallb (fun e => no_output empty_break e && still_running e) before = true ->
  ready_stderr ev = true ->
  bytes_decode (stderr_data ev) = None ->
  exists w',
    receive_message self timeout empty_break w = (Raised UnicodeDecodeError, w') /\
    pending w' = rest.
Proof.
  intros Hp Hsel Hpend Hbefore Herr Hbad.
  rewrite (receive_message_running self p) by assumption. rewrite Hpend.
  destruct (receive_loop_skip (pid p) timeout empty_break before (ev :: rest) w
              Hsel Hbefore) as [w2 ->].
  destruct (receive_loop_undecodable (pid p) timeout empty_break ev rest w2
              Hsel Herr Hbad) as (w' & -> & Hrest).
  exists w'. split; [reflexivity | assumption].
Qed.

Lemma receive_message_undecodable_stderr_witness :
  exists w',
    receive_message (codec := fixint_codec) running_server None false
      (running_world [ev_garbled; ev_reply]) = (Raised UnicodeDecodeError, w') /\
    pending w' = [ev_reply].
Proof.
  apply (receive_message_undecodable_stderr (codec := fixint_codec) running_server
           engine None false [] ev_garbled [ev_reply]
           (running_world [ev_garbled; ev_reply]));
    reflexivity.
Defined.

(** ** What the transport never touches *)

Lemma io_only_refl (w : World) : io_only w w.
Proof.
  repeat split. exists []. split; [symmetry; apply app_nil_r | reflexivity].
Qed.

Lemma io_only_trans (w1 w2 w3 : World) :
  io_only w1 w2 -> io_only w2 w3 -> io_only w1 w3.
Proof.
  intros (Hfs & Hreg & a & Ha & Hta) (Hfs' & Hreg' & b & Hb & Htb).
  split; [congruence |]. split; [congruence |].
  exists (a ++ b). split.
  - rewrite Hb, Ha, app_assoc. reflexivity.
  - rewrite forallb_app, Hta, Htb. reflexivity.
Qed.

Lemma io_only_log (e : effect) (w : World) :
  transport_effect e = true -> io_only w (log e w).
Proof.
  intros He. repeat split. exists [e]. split; [reflexivity |].
  simpl. rewrite He. reflexivity.
Qed.

Lemma io_only_set_pending (l : list poll_event) (w : World) :
  io_only w (set_pending l w).
Proof.
  repeat split. exists []. split; [symmetry; apply app_nil_r | reflexivity].
Qed.

Lemma stdin_write_run (child : nat) (data : list byte) (w : World) :
  stdin_write child data w =
    if bool_decide (child ∈ broken_stdin w)
    then (Raised BrokenPipeError, w)
    else (Returned tt, log (StdinWrite child data) w).
Proof.
  unfold stdin_write, mbind, Py_bind, bind, gets. cbv beta iota.
  case_bool_decide; reflexivity.
Qed.

Section Frame.
Context {Obj : Type} {codec : Codec Obj}.

Lemma read_streams_io (ev : poll_event) (readable : list Stream)
  (outputs : list (list byte)) (w : World) :
  io_only w (snd (read_streams ev readable outputs w)).
Proof.
  revert outputs w. induction readable as [|stream readable IH]; intros outputs w.
  - apply io_only_refl.
  - simpl. case_bool_decide; [apply IH |].
    destruct (bytes_decode (stream_read ev stream)) as [text|];
      [| apply io_only_refl].
    unfold mbind, Py_bind, bind, print, emit, modify. cbv beta iota.
    eapply io_only_trans; [| apply IH].
    apply io_only_log. reflexivity.
Qed.

Lemma receive_loop_io (child : nat) (timeout : option Z) (empty_break : bool)
  (evs : list poll_event) (collected : list (list byte)) (w : World) :
  io_only w (snd (receive_loop child timeout empty_break evs collected w)).
Proof.
  destruct (select_rejects timeout) eqn:Hsel;
    [rewrite receive_loop_rejected by assumption; apply io_only_refl |].
  revert collected w. induction evs as [|ev evs IH]; intros collected w.
  - rewrite receive_loop_blocked by assumption. apply io_only_log. reflexivity.
  - rewrite receive_loop_turn by assumption. cbv zeta.
    assert (Hturn : io_only w (set_pending evs (log (Select child timeout) w))).
    { apply (io_only_trans _ (log (Select child timeout) w));
        [apply io_only_log; reflexivity | apply io_only_set_pending]. }
    destruct (empty_break && (length (select ev) =? 0)%nat); [exact Hturn |].
    pose proof (read_streams_io ev (select ev) collected
                  (set_pending evs (log (Select child timeout) w))) as Hread.
    destruct (read_streams ev (select ev) collected _) as [[outs| |] w2];
      simpl in Hread; try (exact (io_only_trans _ _ _ Hturn Hread)).
    destruct (0 <? length outs)%nat; [exact (io_only_trans _ _ _ Hturn Hread) |].
    destruct (exit_status ev).
    + eapply io_only_trans; [exact (io_only_trans _ _ _ Hturn Hread) |].
      apply io_only_log. reflexivity.
    + eapply io_only_trans; [exact (io_only_trans _ _ _ Hturn Hread) | apply IH].
Qed.

Lemma receive_message_io (self : PKLServer) (timeout : option Z)
  (empty_break : bool) (w : World) :
  io_only w (snd (receive_message self timeout empty_break w)).
Proof.
  destruct (_process self) as [p|] eqn:Hp.
  - rewrite (receive_message_running self p) by assumption.
    pose proof (receive_loop_io (pid p) timeout empty_break (pending w) [] w) as Hloop.
    destruct (receive_loop (pid p) timeout empty_break (pending w) [] w)
      as [[[|outputs]| |] w1]; simpl in Hloop; try exact Hloop.
    destruct (length outputs =? 1)%nat; [| exact Hloop].
    destruct (unpacker_list (hd [] outputs)); exact Hloop.
  - rewrite receive_message_not_started by assumption. apply io_only_refl.
Qed.

Lemma send_message_io (self : PKLServer) (msg_obj : Obj) (w : World) :
  io_only w (snd (send_message self msg_obj w)).
Proof.
  destruct (_process self) as [p|] eqn:Hp.
  - unfold send_message, check_process. rewrite Hp.
    unfold mbind, Py_bind, bind, ret, emit, modify. cbv beta iota.
    destruct (packb msg_obj) as [e|data]; [apply io_only_refl |].
    rewrite stdin_write_run.
    case_bool_decide; [apply io_only_refl |]. cbn [snd].
    apply (io_only_trans _ (log (StdinWrite (pid p) data) w));
      apply io_only_log; reflexivity.
  - rewrite send_message_not_started by assumption. apply io_only_refl.
Qed.

Lemma retry_loop_io (fuel : nat) (self : PKLServer) (max_retry retry : Z)
  (response : option (list Obj)) (w : World) :
  io_only w (snd (retry_loop fuel self max_retry response retry w)).
Proof.
  revert response retry w. induction fuel as [|fuel IH]; intros response retry w;
    simpl retry_loop;
    destruct (bool_decide (response = None) && (retry <=? max_retry)%Z);
    try apply io_only_refl.
  unfold mbind, Py_bind, bind.
  pose proof (receive_message_io self None false w) as Hrecv.
  destruct (receive_message self None false w) as [[r| |] w1]; simpl in Hrecv;
    try exact Hrecv.
  eapply io_only_trans; [exact Hrecv | apply IH].
Qed.

End Frame.

(** Sending and receiving, however they end, leave the files and the
    registry of children as they are, and do nothing but wait on the
    child's pipes, write to its stdin and write to the console: no
    request, no child started, no child terminated. *)
Theorem transport_touches_only_io {Obj : Type} {codec : Codec Obj}
  (self : PKLServer) (msg_obj : Obj) (timeout : option Z) (empty_break : bool)
  (max_retry : Z) (w : World) :
  io_only w (snd (send_message self msg_obj w)) /\
  io_only w (snd (receive_message self timeout empty_break w)) /\
  io_only w (snd (send_and_receive self msg_obj w)) /\
  io_only w (snd (receive_with_retry self max_retry w)).
Proof.
  split; [apply send_message_io |].
  split; [apply receive_message_io |].
  split.
  - unfold send_and_receive, mbind, Py_bind, bind.
    pose proof (send_message_io self msg_obj w) as Hsend.
    destruct (send_message self msg_obj w) as [[[]| |] w1]; simpl in Hsend;
      try exact Hsend.
    eapply io_only_trans; [exact Hsend | apply receive_message_io].
  - unfold receive_with_retry, mbind, Py_bind, bind.
    pose proof (retry_loop_io (Z.to_nat (max_retry + 1)) self max_retry 0 None w)
      as Hloop.
    destruct (retry_loop (Z.to_nat (max_retry + 1)) self max_retry None 0 w)
      as [[[response retry]| |] w1]; simpl in Hloop; try exact Hloop.
    destruct (retry =? max_retry)%Z; simpl; [| exact Hloop].
    eapply io_only_trans; [exact Hloop | apply io_only_log; reflexivity].
Qed.

(** ** Sending *)

(** [send_and_receive] on a started server: an object that [packb]
    refuses raises its exception before anything is written or read; when
    the child no longer reads its stdin the write raises
    [BrokenPipeError] and nothing is read either; otherwise the encoded
    bytes are written to the child's stdin, the stream is flushed, and the
    result is that of a [receive_message] without timeout from there on. *)
Theorem send_and_receive_order {Obj : Type} {codec : Codec Obj}
  (self : PKLServer) (p : Popen) (msg_obj : Obj) (w : World) :
  _process self = Some p ->
  send_and_receive self msg_obj w =
    match packb msg_obj with
    | inl e => (Raised e, w)
    | inr encoded_message =>
        if bool_decide (pid p ∈ broken_stdin w)
        then (Raised BrokenPipeError, w)
        else
          receive_message self None false
            (log (StdinFlush (pid p))
               (log (StdinWrite (pid p) encoded_message) w))
    end.
Proof.
  intros Hp. unfold send_and_receive, send_message, check_process.
  rewrite Hp. unfold mbind, Py_bind, bind, ret. cbv beta iota.
  destruct (packb msg_obj) as [e|data]; [reflexivity |].
  rewrite stdin_write_run. case_bool_decide; reflexivity.
Qed.

Lemma send_and_receive_order_witness :
  send_and_receive (codec := fixint_codec) running_server 200%N
    (running_world [ev_reply]) =
  (Returned (Some [1%N; 2%N]),
   mkWorld (fs installed_world) [engine] []
     [StdinWrite 0 [xcc; xc8]; StdinFlush 0; Select 0 None]) /\
  send_and_receive (codec := fixint_codec) running_server (2 ^ 64)%N
    (running_world [ev_reply]) =
  (Raised (OverflowError "Integer value out of range"), running_world [ev_reply]) /\
  send_and_receive (codec := fixint_codec) running_server 5%N
    (Build_World (fs installed_world) [engine] [ev_eof] [] [0]) =
  (Raised BrokenPipeError,
   Build_World (fs installed_world) [engine] [ev_eof] [] [0]).
Proof.
  split; [| split].
  - rewrite (send_and_receive_order (codec := fixint_codec) running_server engine
               200%N (running_world [ev_reply]) eq_refl).
    reflexivity.
  - rewrite (send_and_receive_order (codec := fixint_codec) running_server engine
               (2 ^ 64)%N (running_world [ev_reply]) eq_refl).
    reflexivity.
  - rewrite (send_and_receive_order (codec := fixint_codec) running_server engine
               5%N (Build_World (fs installed_world) [engine] [ev_eof] [] [0])
               eq_refl).
    reflexivity.
Defined.

(** ** The message codes *)

(** The fourteen message codes are pairwise distinct, as are their names;
    they fill the range 0x20..0x2D, so each is a one-byte positive fixint
    of msgpack; and every response code is the code of its request plus
    one. *)
Theorem message_codes_distinct :
  NoDup (map snd msgapi.codes) /\
  NoDup (map fst msgapi.codes) /\
  map snd msgapi.codes = map Z.of_nat (seq 32 14) /\
  Forall (fun c => (0 <= c < 128)%Z) (map snd msgapi.codes) /\
  msgapi.CODE_NEW_EVALUATOR_RESPONSE = (msgapi.CODE_NEW_EVALUATOR + 1)%Z /\
  msgapi.CODE_EVALUATE_RESPONSE = (msgapi.CODE_EVALUATE + 1)%Z /\
  msgapi.CODE_EVALUATE_READ_RESPONSE = (msgapi.CODE_EVALUATE_READ + 1)%Z /\
  msgapi.CODE_EVALUATE_READ_MODULE_RESPONSE =
    (msgapi.CODE_EVALUATE_READ_MODULE + 1)%Z /\
  msgapi.CODE_LIST_RESOURCES_RESPONSE = (msgapi.CODE_LIST_RESOURCES_REQUEST + 1)%Z /\
  msgapi.CODE_LIST_MODULES_RESPONSE = (msgapi.CODE_LIST_MODULES_REQUEST + 1)%Z.
Proof.
  split; [apply (bool_decide_unpack _); vm_compute; exact I |].
  split; [apply (bool_decide_unpack _); vm_compute; exact I |].
  split; [reflexivity |].
  split; [| repeat split].
  apply (bool_decide_unpack _). vm_compute. exact I.
Qed.
